(** * Binance-Bot: the quantity normalizer, the rules cache and the order gateway

    A shallow embedding of [BasicBot] (src/main.py) and of the part of
    Python's [decimal] module its arithmetic runs on, followed by the
    properties of the specification that were checked against it. *)

From Stdlib Require Import ZArith NArith QArith Qpower Qabs Lia String Ascii List Bool.
From stdpp Require Import gmap strings.
Import ListNotations.

Local Open Scope Z_scope.

(** ** Results and exceptions *)

(** The exceptions the modelled methods can raise.  [BelowMinimum] and
    [SymbolNotFound] are the two [ValueError]s main.py raises itself
    (lines 103 and 84), told apart here by a constructor each rather than
    by their message.  The three [Decimal...] constructors are the signals
    the default decimal context traps. *)
Inductive Exception : Type :=
| BelowMinimum                (* ValueError("Quantity {q} is below minimum {min_qty}") *)
| SymbolNotFound (symbol_upper : string)   (* ValueError("Symbol {s} not found") *)
| ValueError (msg : string)
| KeyError (key : string)
| TypeError
| OverflowError
| StopIteration
| DecimalInvalidOperation
| DecimalDivisionByZero
| DecimalOverflow
| ClientError (msg : string). (* raised by the exchange client: API or transport *)

Inductive Result (A : Type) : Type :=
| Ok (a : A)
| Raise (e : Exception).
Arguments Ok {A} a.
Arguments Raise {A} e.

Definition bind {A B} (r : Result A) (k : A -> Result B) : Result B :=
  match r with
  | Ok a => k a
  | Raise e => Raise e
  end.

Notation "x <- r ;; k" := (bind r (fun x => k))
  (at level 100, r at next level, right associativity).

(** ** Text *)

(** [str.upper] on the 7-bit letters; a trading symbol is ASCII text, and
    any other byte is left as it is. *)
Definition upper_ascii (c : ascii) : ascii :=
  let n := N_of_ascii c in
  if ((97 <=? n) && (n <=? 122))%N then ascii_of_N (n - 32) else c.

Fixpoint upper (s : string) : string :=
  match s with
  | EmptyString => EmptyString
  | String c r => String (upper_ascii c) (upper r)
  end.

(** ** Python's [Decimal] under the default context *)

Module PyDecimal.

(** A decimal is a sign, a coefficient and an exponent, or a special value.
    [NaN true] is the signalling NaN; the sign and the payload a NaN may
    carry only show in its text and are not represented. *)
Inductive t : Type :=
| Finite (sign : bool) (coef : N) (exp : Z)
| Infinity (sign : bool)
| NaN (signalling : bool).

(** [getcontext()]: prec=28, rounding=ROUND_HALF_EVEN, Emin=-999999,
    Emax=999999, clamp=0, traps=[InvalidOperation, DivisionByZero, Overflow]. *)
Definition prec : Z := 28.
Definition Emax : Z := 999999.
Definition Emin : Z := -999999.
Definition Etiny : Z := Emin - prec + 1.
Definition Etop : Z := Emax - prec + 1.

Definition is_finite (d : t) : bool :=
  match d with Finite _ _ _ => true | _ => false end.

Definition signed (sign : bool) (coef : N) : Z :=
  if sign then - Z.of_N coef else Z.of_N coef.

(** The coefficient of [d] written at the smaller exponent [e0]:
    [self._int + '0'*(self._exp - e0)] read as an integer, with the sign. *)
Definition scaled (sign : bool) (coef : N) (exp e0 : Z) : Z :=
  signed sign coef * 10 ^ (exp - e0).

(** *** Decimal digits *)

Fixpoint digits_aux (fuel : nat) (n : N) (acc : list N) : list N :=
  match fuel with
  | O => n :: acc
  | S f => if (n <? 10)%N then n :: acc
           else digits_aux f (n / 10)%N ((n mod 10)%N :: acc)
  end.

(** [str(n)] as a list of digit values, most significant first. *)
Definition N_digits (n : N) : list N :=
  digits_aux (N.to_nat (N.log2 n)) n [].

(** [len(self._int)] *)
Definition ndigits (n : N) : Z := Z.of_nat (length (N_digits n)).

(** *** Rounding *)

(** ROUND_HALF_EVEN of the coefficient [c] when its last [shift > 0] digits
    are dropped. *)
Definition round_half_even (c : N) (shift : Z) : N :=
  let p := (10 ^ Z.to_N shift)%N in
  let q := (c / p)%N in
  let r := (c mod p)%N in
  match (2 * r ?= p)%N with
  | Lt => q
  | Gt => (q + 1)%N
  | Eq => if N.even q then q else (q + 1)%N
  end.

(** [Decimal._fix]: round a finite result to the context. *)
Definition fix_ (sign : bool) (c : N) (e : Z) : Result t :=
  if (c =? 0)%N then
    Ok (Finite sign 0 (Z.min (Z.max e Etiny) Emax))
  else
    let exp_min := ndigits c + e - prec in
    if exp_min >? Etop then Raise DecimalOverflow
    else
      let exp_min := Z.max exp_min Etiny in
      if e <? exp_min then
        let c' := round_half_even c (exp_min - e) in
        if ndigits c' >? prec then
          if exp_min + 1 >? Etop then Raise DecimalOverflow
          else Ok (Finite sign (c' / 10)%N (exp_min + 1))
        else Ok (Finite sign c' exp_min)
      else Ok (Finite sign c e).

(** [Decimal._rescale(exp, rounding)] for a finite value; no context
    precision applies. *)
Definition rescale (c : N) (e : Z) (exp : Z) : N :=
  if (c =? 0)%N then 0%N
  else if e >=? exp then (c * 10 ^ Z.to_N (e - exp))%N
  else round_half_even c (exp - e).

(** *** Comparison and arithmetic *)

(** [Decimal._cmp] on two values that are not NaN. *)
Definition cmp (a b : t) : comparison :=
  match a, b with
  | Finite sa ca ea, Finite sb cb eb =>
      let e0 := Z.min ea eb in
      scaled sa ca ea e0 ?= scaled sb cb eb e0
  | Infinity sa, Infinity sb =>
      if eqb sa sb then Eq else if sa then Lt else Gt
  | Infinity sa, _ => if sa then Lt else Gt
  | _, Infinity sb => if sb then Gt else Lt
  | _, _ => Eq
  end.

(** [a < b] ([Decimal.__lt__]): a comparison involving a NaN signals
    InvalidOperation, which the context traps. *)
Definition lt (a b : t) : Result bool :=
  match a, b with
  | NaN _, _ | _, NaN _ => Raise DecimalInvalidOperation
  | _, _ => Ok (match cmp a b with Lt => true | _ => false end)
  end.

(** [a // b] ([Decimal.__floordiv__] and [_divide]): the integer part of
    the quotient, truncated towards zero, with exponent 0. *)
Definition floordiv (a b : t) : Result t :=
  match a, b with
  | NaN true, _ | _, NaN true => Raise DecimalInvalidOperation
  | NaN false, _ | _, NaN false => Ok (NaN false)
  | Infinity sa, Infinity sb => Raise DecimalInvalidOperation
  | Infinity sa, Finite sb _ _ => Ok (Infinity (xorb sa sb))
  | Finite sa _ _, Infinity sb => Ok (Finite (xorb sa sb) 0 0)
  | Finite sa ca ea, Finite sb cb eb =>
      if (cb =? 0)%N then
        if (ca =? 0)%N then Raise DecimalInvalidOperation
        else Raise DecimalDivisionByZero
      else
        let e0 := Z.min ea eb in
        let q := (Z.of_N ca * 10 ^ (ea - e0)) / (Z.of_N cb * 10 ^ (eb - e0)) in
        if q <? 10 ^ prec then Ok (Finite (xorb sa sb) (Z.to_N q) 0)
        else Raise DecimalInvalidOperation
  end.

(** [a * b] ([Decimal.__mul__]) *)
Definition mul (a b : t) : Result t :=
  match a, b with
  | NaN true, _ | _, NaN true => Raise DecimalInvalidOperation
  | NaN false, _ | _, NaN false => Ok (NaN false)
  | Infinity sa, Infinity sb => Ok (Infinity (xorb sa sb))
  | Infinity sa, Finite sb cb _ =>
      if (cb =? 0)%N then Raise DecimalInvalidOperation
      else Ok (Infinity (xorb sa sb))
  | Finite sa ca _, Infinity sb =>
      if (ca =? 0)%N then Raise DecimalInvalidOperation
      else Ok (Infinity (xorb sa sb))
  | Finite sa ca ea, Finite sb cb eb =>
      fix_ (xorb sa sb) (ca * cb)%N (ea + eb)
  end.

(** *** Text of a decimal *)

Definition digit_char (d : N) : ascii := ascii_of_N (48 + d).

Definition digit_of_char (c : ascii) : option N :=
  let n := N_of_ascii c in
  if ((48 <=? n) && (n <=? 57))%N then Some (n - 48)%N else None.

(** [format(d, '.{precision}f')] ([Decimal.__format__] with type [f], no
    width, sign or separator option, followed by [_format_number]). *)
Definition format_f (d : t) (precision : Z) : Result string :=
  if precision <? 0 then Raise (ValueError "invalid format string")
  else
    match d with
    | NaN s => Ok (if s then "sNaN" else "NaN")%string
    | Infinity s => Ok (if s then "-Infinity" else "Infinity")%string
    | Finite s c e =>
        let ds := map digit_char (N_digits (rescale c e (- precision))) in
        let dotplace := Z.of_nat (length ds) - precision in
        let intpart :=
          if dotplace <? 0 then ["0"%char]
          else match firstn (Z.to_nat dotplace) ds with
               | [] => ["0"%char]
               | l => l
               end in
        let fracpart :=
          if dotplace <? 0 then repeat "0"%char (Z.to_nat (- dotplace)) ++ ds
          else skipn (Z.to_nat dotplace) ds in
        Ok (string_of_list_ascii
              ((if s then ["-"%char] else []) ++ intpart ++
               match fracpart with
               | [] => []
               | _ => "."%char :: fracpart
               end))
    end.

(** The integer a list of digit values denotes, continuing from [acc]. *)
Fixpoint digits_value (ds : list N) (acc : N) : N :=
  match ds with
  | [] => acc
  | d :: r => digits_value r (10 * acc + d)%N
  end.

Fixpoint read_digits (l : list ascii) : option (list N) :=
  match l with
  | [] => Some []
  | c :: r =>
      match digit_of_char c, read_digits r with
      | Some d, Some ds => Some (d :: ds)
      | _, _ => None
      end
  end.

(** [l] cut at the first character satisfying [sep], which is dropped. *)
Fixpoint split_at (sep : ascii -> bool) (l : list ascii)
  : list ascii * option (list ascii) :=
  match l with
  | [] => ([], None)
  | c :: r =>
      if sep c then ([], Some r)
      else let '(a, b) := split_at sep r in (c :: a, b)
  end.

Definition is_dot (c : ascii) : bool := Ascii.eqb c ".".

Definition is_exp_mark (c : ascii) : bool :=
  Ascii.eqb c "e" || Ascii.eqb c "E".

Definition read_sign (l : list ascii) : bool * list ascii :=
  match l with
  | c :: r =>
      if Ascii.eqb c "-" then (true, r)
      else if Ascii.eqb c "+" then (false, r)
      else (false, l)
  | [] => (false, [])
  end.

(** The exponent part: [[-+]?\d+]. *)
Definition read_exponent (l : list ascii) : option Z :=
  let '(s, body) := read_sign l in
  match body, read_digits body with
  | _ :: _, Some ds => Some (signed s (digits_value ds 0))
  | _, _ => None
  end.

(** The numeric alternative of the constructor's grammar:
    [(?=\d|\.\d)\d*(\.\d* )?(E[-+]?\d+)?]. *)
Definition read_number (l : list ascii) : option (N * Z) :=
  let '(mant, expo) := split_at is_exp_mark l in
  let '(ip, fp) := split_at is_dot mant in
  let fp := match fp with Some f => f | None => [] end in
  match read_digits ip, read_digits fp with
  | Some di, Some df =>
      match di ++ df with
      | [] => None
      | ds =>
          let c := digits_value ds 0 in
          let shift := Z.of_nat (length df) in
          match expo with
          | None => Some (c, - shift)
          | Some x =>
              match read_exponent x with
              | Some e => Some (c, e - shift)
              | None => None
              end
          end
      end
  | _, _ => None
  end.

(** [Decimal(s)] for a string: exact, whatever the context.  [None] stands
    for the ConversionSyntax condition.  The blanks and underscores the
    constructor strips first are not modelled (such text is malformed
    here), nor is the payload of a NaN. *)
Definition of_string (s : string) : option t :=
  let '(sg, body) := read_sign (list_ascii_of_string s) in
  let word := upper (string_of_list_ascii body) in
  if String.eqb word "INF" || String.eqb word "INFINITY" then Some (Infinity sg)
  else if String.eqb word "NAN" then Some (NaN false)
  else if String.eqb word "SNAN" then Some (NaN true)
  else
    match read_number body with
    | Some (c, e) => Some (Finite sg c e)
    | None => None
    end.

(** The characters of [s] after its first decimal point; none when [s]
    has no point. *)
Definition fraction_part (s : string) : list ascii :=
  match snd (split_at is_dot (list_ascii_of_string s)) with
  | Some f => f
  | None => []
  end.


(** [Decimal(n)] for a Python int. *)
Definition of_Z (n : Z) : t := Finite (n <? 0) (Z.abs_N n) 0.

(** *** The number a finite decimal denotes *)

Definition value (d : t) : Q :=
  match d with
  | Finite s c e => (inject_Z (signed s c) * 10 ^ e)%Q
  | _ => 0%Q
  end.

(** [self._exp] of a finite decimal: the place of the last digit it is
    written with. *)
Definition exponent (d : t) : Z :=
  match d with
  | Finite _ _ e => e
  | _ => 0
  end.

(** [a] denotes less than [b], the infinities included.  A NaN is below
    nothing, and nothing is below it. *)
Definition below (a b : t) : Prop :=
  match a, b with
  | Finite _ _ _, Finite _ _ _ => (value a < value b)%Q
  | Infinity true, Finite _ _ _ => True
  | Infinity true, Infinity false => True
  | Finite _ _ _, Infinity false => True
  | _, _ => False
  end.

(** *** Fixed-point text, by digit values *)

Definition small (d : N) : Prop := (d < 10)%N.

Definition sign_chars (s : bool) : list ascii :=
  if s then ["-"%char] else [].

Definition point_suffix (fp : list N) : list ascii :=
  match fp with
  | [] => []
  | _ => "."%char :: map digit_char fp
  end.

(** The text with integer digits [ip] and fraction digits [fp]. *)
Definition fixed_text (s : bool) (ip fp : list N) : string :=
  string_of_list_ascii (sign_chars s ++ map digit_char ip ++ point_suffix fp).

End PyDecimal.

Abbreviation Decimal := PyDecimal.t.

(** ** The trading rules and the quantity normalizer *)

(** The dictionary [get_symbol_info] builds (main.py, lines 76-81). *)
Record SymbolInfo : Type := {
  price_precision : Z;
  quantity_precision : Z;
  min_qty : Decimal;
  step_size : Decimal;
}.

(** Lines 99-105 of [_validate_and_format_quantity]: what the method does
    once [get_symbol_info] has returned [symbol_info].  [quantity_dec] is
    [Decimal(str(quantity))]: the float argument enters the computation
    only through the decimal its [str] denotes, which is finite for a
    finite float, [Infinity] for [inf] and [NaN] for [nan]. *)
Definition normalize (symbol_info : SymbolInfo) (quantity_dec : Decimal)
  : Result string :=
  let min_qty := min_qty symbol_info in
  let step_size := step_size symbol_info in
  below <- PyDecimal.lt quantity_dec min_qty ;;
  if below then Raise BelowMinimum
  else
    quotient <- PyDecimal.floordiv quantity_dec step_size ;;
    adjusted_quantity <- PyDecimal.mul quotient step_size ;;
    PyDecimal.format_f adjusted_quantity (quantity_precision symbol_info).

(** The rules of the specification's scenarios: minimum 0.001, step 0.001,
    three decimals of quantity.  The scenarios leave the price precision
    open; it plays no part in [normalize]. *)
Definition btc_rules : SymbolInfo :=
  {| price_precision := 2;
     quantity_precision := 3;
     min_qty := PyDecimal.Finite false 1 (-3);
     step_size := PyDecimal.Finite false 1 (-3) |}.

(** Rules and quantities of other examples.  [offset_rules] has a minimum,
    0.0015, that is not a multiple of its step; [fine_step_rules] has a
    step, 0.0003, with more decimals than its quantity precision;
    [signed_rules] has a negative minimum; [threes_rules] counts in
    steps of 3 units; [far_rules] has a step of 1E+1000000. *)
Definition offset_rules : SymbolInfo :=
  {| price_precision := 2;
     quantity_precision := 3;
     min_qty := PyDecimal.Finite false 15 (-4);
     step_size := PyDecimal.Finite false 1 (-3) |}.

Definition fine_step_rules : SymbolInfo :=
  {| price_precision := 2;
     quantity_precision := 3;
     min_qty := PyDecimal.Finite false 3 (-4);
     step_size := PyDecimal.Finite false 3 (-4) |}.

Definition signed_rules : SymbolInfo :=
  {| price_precision := 2;
     quantity_precision := 3;
     min_qty := PyDecimal.Finite true 1 0;
     step_size := PyDecimal.Finite false 1 (-3) |}.

Definition threes_rules : SymbolInfo :=
  {| price_precision := 2;
     quantity_precision := 0;
     min_qty := PyDecimal.Finite false 3 0;
     step_size := PyDecimal.Finite false 3 0 |}.

Definition far_rules : SymbolInfo :=
  {| price_precision := 2;
     quantity_precision := 0;
     min_qty := PyDecimal.Finite false 1 1000000;
     step_size := PyDecimal.Finite false 1 1000000 |}.

Definition nan_step_rules : SymbolInfo :=
  {| price_precision := 2;
     quantity_precision := 3;
     min_qty := PyDecimal.Finite false 1 (-3);
     step_size := PyDecimal.NaN false |}.

(** 0.0035, 0.0005, 0.0018, 0.0006, -0.0035, 1e+30 and 3 * (10**28 - 1) *)
Definition quantity_0_0035 : Decimal := PyDecimal.Finite false 35 (-4).
Definition quantity_0_0005 : Decimal := PyDecimal.Finite false 5 (-4).
Definition quantity_0_0018 : Decimal := PyDecimal.Finite false 18 (-4).
Definition quantity_0_0006 : Decimal := PyDecimal.Finite false 6 (-4).
Definition quantity_minus_0_0035 : Decimal := PyDecimal.Finite true 35 (-4).
Definition quantity_1e30 : Decimal := PyDecimal.Finite false 1 30.
Definition quantity_29_digits : Decimal :=
  PyDecimal.Finite false 29999999999999999999999999997 0.

(** ** JSON values and Python floats *)

(** A scalar of a decoded reply.  The exchange writes every decimal field
    as a string, so JSON reals are not represented. *)
Inductive Value : Type :=
| VNone
| VInt (n : Z)
| VStr (s : string).

(** [d[key]] on a decoded JSON object. *)
Definition getitem (d : gmap string Value) (key : string) : Result Value :=
  match d !! key with
  | Some v => Ok v
  | None => Raise (KeyError key)
  end.

(** [v == s] for a string [s] *)
Definition is_str (v : Value) (s : string) : bool :=
  match v with
  | VStr t => String.eqb t s
  | _ => false
  end.

(** [Decimal(v)] *)
Definition Decimal_of_value (v : Value) : Result Decimal :=
  match v with
  | VStr s =>
      match PyDecimal.of_string s with
      | Some d => Ok d
      | None => Raise DecimalInvalidOperation
      end
  | VInt n => Ok (PyDecimal.of_Z n)
  | VNone => Raise TypeError
  end.

Module PyFloat.

(** A float that [float()] produced is represented by the decimal it was
    read from: [FloatOf d] is the binary64 number nearest to [d] (round
    half to even, an infinity beyond the range).  The tests on it below
    are exact for that number. *)
Inductive t : Type :=
| FloatOf (d : Decimal).

(** Half of the smallest positive binary64 number, [2 ** -1075]: what lies
    at or below it in magnitude is read as zero. *)
Definition half_min_subnormal : Decimal :=
  PyDecimal.Finite false (5 ^ 1075) (-1075).

(** The first integer magnitude that does not convert:
    [2**1024 - 2**970]. *)
Definition int_overflow : Z := 2 ^ 1024 - 2 ^ 970.

(** [float(v)] *)
Definition of_value (v : Value) : Result t :=
  match v with
  | VStr s =>
      match PyDecimal.of_string s with
      | Some (PyDecimal.NaN true) | None =>
          Raise (ValueError "could not convert string to float")
      | Some d => Ok (FloatOf d)
      end
  | VInt n =>
      if Z.abs n <? int_overflow then Ok (FloatOf (PyDecimal.of_Z n))
      else Raise OverflowError
  | VNone => Raise TypeError
  end.

Definition magnitude_above_half_min (c : N) (e : Z) : bool :=
  match PyDecimal.cmp (PyDecimal.Finite false c e) half_min_subnormal with
  | Gt => true
  | _ => false
  end.

(** [x > 0] *)
Definition gt_zero (x : t) : bool :=
  match x with
  | FloatOf (PyDecimal.Finite false c e) => magnitude_above_half_min c e
  | FloatOf (PyDecimal.Infinity false) => true
  | FloatOf _ => false
  end.

(** [x != 0] *)
Definition nonzero (x : t) : bool :=
  match x with
  | FloatOf (PyDecimal.Finite _ c e) => magnitude_above_half_min c e
  | FloatOf _ => true
  end.

End PyFloat.

(** ** Replies of the exchange *)

(** One element of [exchange_info['symbols']]. *)
Module SymbolEntry.
Record t : Type := {
  symbol : string;
  pricePrecision : Z;
  quantityPrecision : Z;
  filters : list (gmap string Value);
}.
End SymbolEntry.

(** The reply of [futures_account]. *)
Record Account : Type := {
  assets : list (gmap string Value);
  totalMarginBalance : Value;
  availableBalance : Value;
  totalUnrealizedProfit : Value;
}.

(** A request sent through [self.client]; an order request carries its
    keyword arguments. *)
Inductive Call : Type :=
| Call_futures_account
| Call_futures_exchange_info
| Call_futures_create_order (params : gmap string string).

(** The exchange as the bot sees it: what each endpoint answers, given the
    requests that were sent before.  An answer is a decoded reply or an
    exception of the client library. *)
Record Client : Type := {
  futures_account : list Call -> Result Account;
  futures_exchange_info : list Call -> Result (list SymbolEntry.t);
  futures_create_order : list Call -> gmap string string -> Result (gmap string Value);
}.

(** ** The bot *)

Inductive LogEntry : Type :=
| SymbolInfoFailed (symbol_upper : string) (e : Exception).

(** The state of a [BasicBot]: its rules cache, the requests it has sent so
    far (oldest first) and the error lines it has logged. *)
Record BasicBot : Type := {
  _symbol_info_cache : gmap string SymbolInfo;
  requests : list Call;
  error_log : list LogEntry;
}.

(** A method: a result or an exception, and the state it leaves. *)
Definition Bot (A : Type) : Type := BasicBot -> Result A * BasicBot.

Definition sent (c : Call) (self : BasicBot) : BasicBot :=
  {| _symbol_info_cache := _symbol_info_cache self;
     requests := requests self ++ [c];
     error_log := error_log self |}.

Definition logged (l : LogEntry) (self : BasicBot) : BasicBot :=
  {| _symbol_info_cache := _symbol_info_cache self;
     requests := requests self;
     error_log := error_log self ++ [l] |}.

Definition cached (key : string) (info : SymbolInfo) (self : BasicBot) : BasicBot :=
  {| _symbol_info_cache := <[key := info]> (_symbol_info_cache self);
     requests := requests self;
     error_log := error_log self |}.

(** The cache of a new bot is empty (main.py, line 43). *)
Definition new_bot : BasicBot :=
  {| _symbol_info_cache := ∅; requests := []; error_log := [] |}.

(** [next(f[key] for f in filters if f['filterType'] == 'LOT_SIZE')] *)
Fixpoint lot_size_field (filters : list (gmap string Value)) (key : string)
  : Result Value :=
  match filters with
  | [] => Raise StopIteration
  | f :: rest =>
      ty <- getitem f "filterType" ;;
      if is_str ty "LOT_SIZE" then getitem f key
      else lot_size_field rest key
  end.

(** The dictionary built at lines 76-81, entries in the order written. *)
Definition extract_info (s : SymbolEntry.t) : Result SymbolInfo :=
  min_v <- lot_size_field (SymbolEntry.filters s) "minQty" ;;
  min_d <- Decimal_of_value min_v ;;
  step_v <- lot_size_field (SymbolEntry.filters s) "stepSize" ;;
  step_d <- Decimal_of_value step_v ;;
  Ok {| price_precision := SymbolEntry.pricePrecision s;
        quantity_precision := SymbolEntry.quantityPrecision s;
        min_qty := min_d;
        step_size := step_d |}.

(** The entry the loop of line 74 stops at: the first one named
    [symbol_upper]. *)
Definition find_symbol (symbols : list SymbolEntry.t) (symbol_upper : string)
  : option SymbolEntry.t :=
  find (fun s => String.eqb (SymbolEntry.symbol s) symbol_upper) symbols.

(** The dictionary [get_account_balance] returns. *)
Module Balance.
Record t : Type := {
  total_margin_balance : PyFloat.t;
  available_balance : PyFloat.t;
  total_unrealized_pnl : PyFloat.t;
  balances : list (gmap string Value);
}.
End Balance.

(** The dictionary [_format_order_response] returns. *)
Module OrderRecord.
Record t : Type := {
  order_id : Value;
  symbol : Value;
  side : Value;
  type : Value;
  quantity : PyFloat.t;
  price : PyFloat.t;
  status : Value;
}.
End OrderRecord.

(** [float(b['walletBalance'])] *)
Definition wallet_balance (b : gmap string Value) : Result PyFloat.t :=
  w <- getitem b "walletBalance" ;;
  PyFloat.of_value w.

(** [[b for b in assets if float(b['walletBalance']) > 0]] (line 60) *)
Fixpoint positive_balances (assets : list (gmap string Value))
  : Result (list (gmap string Value)) :=
  match assets with
  | [] => Ok []
  | b :: rest =>
      x <- wallet_balance b ;;
      kept <- positive_balances rest ;;
      Ok (if PyFloat.gt_zero x then b :: kept else kept)
  end.

(** [order.get('price', 0)] *)
Definition get_price (order : gmap string Value) : Value :=
  match order !! "price" with
  | Some v => v
  | None => VInt 0
  end.

(** [BasicBot._format_order_response] (lines 130-140): the entries are
    evaluated in the order written. *)
Definition _format_order_response (order : gmap string Value)
  : Result OrderRecord.t :=
  order_id <- getitem order "orderId" ;;
  symbol <- getitem order "symbol" ;;
  side <- getitem order "side" ;;
  type <- getitem order "type" ;;
  orig_qty <- getitem order "origQty" ;;
  quantity <- PyFloat.of_value orig_qty ;;
  price <- PyFloat.of_value (get_price order) ;;
  status <- getitem order "status" ;;
  Ok {| OrderRecord.order_id := order_id;
        OrderRecord.symbol := symbol;
        OrderRecord.side := side;
        OrderRecord.type := type;
        OrderRecord.quantity := quantity;
        OrderRecord.price := price;
        OrderRecord.status := status |}.

(** The keyword arguments of the two order requests (lines 114-116 and
    121-124). *)
Definition market_params (symbol side formatted_quantity : string)
  : gmap string string :=
  <["symbol" := upper symbol]>
    (<["side" := upper side]>
       (<["type" := "MARKET"]>
          (<["quantity" := formatted_quantity]> ∅))).

Definition limit_params (symbol side formatted_quantity price : string)
  : gmap string string :=
  <["symbol" := upper symbol]>
    (<["side" := upper side]>
       (<["type" := "LIMIT"]>
          (<["timeInForce" := "GTC"]>
             (<["quantity" := formatted_quantity]>
                (<["price" := price]> ∅))))).

Section Methods.

Variable client : Client.

(** [BasicBot.get_symbol_info] (lines 68-87) *)
Definition get_symbol_info (symbol : string) : Bot SymbolInfo :=
  fun self =>
    let symbol_upper := upper symbol in
    match _symbol_info_cache self !! symbol_upper with
    | Some info => (Ok info, self)
    | None =>
        let reply := futures_exchange_info client (requests self) in
        let self := sent Call_futures_exchange_info self in
        let outcome :=
          exchange_info <- reply ;;
          match find_symbol exchange_info symbol_upper with
          | Some s => extract_info s
          | None => Raise (SymbolNotFound symbol_upper)
          end in
        match outcome with
        | Ok info => (Ok info, cached symbol_upper info self)
        | Raise e => (Raise e, logged (SymbolInfoFailed symbol_upper e) self)
        end
    end.

(** [BasicBot._validate_and_format_quantity] (lines 97-105).  The float
    argument is used through [str(quantity)] only, and [quantity] here is
    that text. *)
Definition _validate_and_format_quantity (symbol quantity : string)
  : Bot string :=
  fun self =>
    match get_symbol_info symbol self with
    | (Raise e, self) => (Raise e, self)
    | (Ok symbol_info, self) =>
        (quantity_dec <- Decimal_of_value (VStr quantity) ;;
         normalize symbol_info quantity_dec, self)
    end.

(** [BasicBot.get_account_balance] (lines 58-66) *)
Definition get_account_balance : Bot Balance.t :=
  fun self =>
    let reply := futures_account client (requests self) in
    let self := sent Call_futures_account self in
    (account <- reply ;;
     balances <- positive_balances (assets account) ;;
     total_margin_balance <- PyFloat.of_value (totalMarginBalance account) ;;
     available_balance <- PyFloat.of_value (availableBalance account) ;;
     total_unrealized_pnl <- PyFloat.of_value (totalUnrealizedProfit account) ;;
     Ok {| Balance.total_margin_balance := total_margin_balance;
           Balance.available_balance := available_balance;
           Balance.total_unrealized_pnl := total_unrealized_pnl;
           Balance.balances := balances |},
     self).

(** [self.client.futures_create_order( **params)] followed by
    [self._format_order_response(order)]. *)
Definition submit_order (params : gmap string string) : Bot OrderRecord.t :=
  fun self =>
    let reply := futures_create_order client (requests self) params in
    (order <- reply ;; _format_order_response order,
     sent (Call_futures_create_order params) self).

(** [BasicBot.place_market_order] (lines 112-117) *)
Definition place_market_order (symbol side quantity : string)
  : Bot OrderRecord.t :=
  fun self =>
    match _validate_and_format_quantity symbol quantity self with
    | (Raise e, self) => (Raise e, self)
    | (Ok formatted_quantity, self) =>
        submit_order (market_params symbol side formatted_quantity) self
    end.

(** [BasicBot.place_limit_order] (lines 119-125).  [price] is the text of
    [f"{price}"], as [quantity] is the text of [str(quantity)]. *)
Definition place_limit_order (symbol side quantity price : string)
  : Bot OrderRecord.t :=
  fun self =>
    match _validate_and_format_quantity symbol quantity self with
    | (Raise e, self) => (Raise e, self)
    | (Ok formatted_quantity, self) =>
        submit_order (limit_params symbol side formatted_quantity price) self
    end.

End Methods.

(** ** Notions the properties are stated with *)

(** The cache holds under [symbol_upper] nothing but what line 76 extracts
    from the instrument list [exchange_info]. *)
Definition coherent (exchange_info : list SymbolEntry.t) (self : BasicBot) : Prop :=
  forall symbol_upper info,
    _symbol_info_cache self !! symbol_upper = Some info ->
    exists s, find_symbol exchange_info symbol_upper = Some s /\
              extract_info s = Ok info.

(** The wallet balance of an asset entry reads as a float above zero. *)
Definition wallet_positive (b : gmap string Value) : bool :=
  match wallet_balance b with
  | Ok x => PyFloat.gt_zero x
  | Raise _ => false
  end.

(** The wallet balance of an asset entry reads as a float other than zero. *)
Definition wallet_nonzero (b : gmap string Value) : bool :=
  match wallet_balance b with
  | Ok x => PyFloat.nonzero x
  | Raise _ => false
  end.

(** *** Exchanges and replies used as examples *)

(** An exchange that lists no instrument, holds no asset and takes no
    order. *)
Definition empty_exchange : Client :=
  {| futures_account := fun _ =>
       Ok {| assets := []; totalMarginBalance := VStr "0";
             availableBalance := VStr "0"; totalUnrealizedProfit := VStr "0" |};
     futures_exchange_info := fun _ => Ok [];
     futures_create_order := fun _ _ => Raise (ClientError "rejected") |}.

Definition lot_size_filter (minQty stepSize : string) : gmap string Value :=
  <["filterType" := VStr "LOT_SIZE"]>
    (<["minQty" := VStr minQty]> (<["stepSize" := VStr stepSize]> ∅)).

Definition btcusdt_entry : SymbolEntry.t :=
  {| SymbolEntry.symbol := "BTCUSDT";
     SymbolEntry.pricePrecision := 2;
     SymbolEntry.quantityPrecision := 3;
     SymbolEntry.filters := [ <["filterType" := VStr "PRICE_FILTER"]> ∅;
                  lot_size_filter "0.001" "0.001" ] |}.

(** The reply of the specification's market-order scenario. *)
Definition echoed_order : gmap string Value :=
  <["orderId" := VInt 5]>
    (<["symbol" := VStr "BTCUSDT"]>
       (<["side" := VStr "BUY"]>
          (<["type" := VStr "MARKET"]>
             (<["origQty" := VStr "0.010"]>
                (<["status" := VStr "NEW"]> ∅))))).

(** An exchange that lists BTCUSDT and echoes one order. *)
Definition btc_exchange : Client :=
  {| futures_account := fun _ =>
       Ok {| assets := [ <["asset" := VStr "USDT"]> (<["walletBalance" := VStr "-1.50000000"]> ∅);
                         <["asset" := VStr "BNB"]> (<["walletBalance" := VStr "0.25000000"]> ∅);
                         <["asset" := VStr "BTC"]> (<["walletBalance" := VStr "0.00000000"]> ∅) ];
             totalMarginBalance := VStr "98.50000000";
             availableBalance := VStr "98.50000000";
             totalUnrealizedProfit := VStr "0.00000000" |};
     futures_exchange_info := fun _ => Ok [btcusdt_entry];
     futures_create_order := fun _ _ => Ok echoed_order |}.

(** ** Listing the open orders *)

(** [{'symbol': symbol.upper()} if symbol else {}] (line 108): [None] and
    the empty string both give no filter. *)
Definition open_orders_params (symbol : option string) : gmap string string :=
  match symbol with
  | Some (String c r) => <["symbol" := upper (String c r)]> ∅
  | Some EmptyString => ∅
  | None => ∅
  end.

(** [[self._format_order_response(o) for o in orders]] (line 110) *)
Fixpoint format_orders (orders : list (gmap string Value))
  : Result (list OrderRecord.t) :=
  match orders with
  | [] => Ok []
  | o :: rest =>
      r <- _format_order_response o ;;
      rs <- format_orders rest ;;
      Ok (r :: rs)
  end.

(** [BasicBot.get_open_orders] (lines 107-110).  The method reads and
    writes nothing of the bot but its client; [futures_get_open_orders] is
    what the exchange answers to the keyword arguments it is sent. *)
Definition get_open_orders
  (futures_get_open_orders :
     gmap string string -> Result (list (gmap string Value)))
  (symbol : option string) : Result (list OrderRecord.t) :=
  orders <- futures_get_open_orders (open_orders_params symbol) ;;
  format_orders orders.

(** ** Sessions *)

(** A call of one of the methods that use the rules cache or the request
    log, and the state a sequence of such calls leaves. *)
Inductive Command : Type :=
| Cmd_get_symbol_info (symbol : string)
| Cmd_get_account_balance
| Cmd_validate_and_format_quantity (symbol quantity : string)
| Cmd_place_market_order (symbol side quantity : string)
| Cmd_place_limit_order (symbol side quantity price : string).

Definition step (client : Client) (self : BasicBot) (c : Command) : BasicBot :=
  match c with
  | Cmd_get_symbol_info symbol =>
      snd (get_symbol_info client symbol self)
  | Cmd_get_account_balance =>
      snd (get_account_balance client self)
  | Cmd_validate_and_format_quantity symbol quantity =>
      snd (_validate_and_format_quantity client symbol quantity self)
  | Cmd_place_market_order symbol side quantity =>
      snd (place_market_order client symbol side quantity self)
  | Cmd_place_limit_order symbol side quantity price =>
      snd (place_limit_order client symbol side quantity price self)
  end.

Definition run (client : Client) (commands : list Command) (self : BasicBot)
  : BasicBot :=
  fold_left (step client) commands self.

(** Every key of the cache is in upper case. *)
Definition upper_keys (self : BasicBot) : Prop :=
  forall key info, _symbol_info_cache self !! key = Some info -> upper key = key.

(** The exchange serves one instrument list, whenever it answers. *)
Definition serves (client : Client) (exchange_info : list SymbolEntry.t) : Prop :=
  forall history reply,
    futures_exchange_info client history = Ok reply -> reply = exchange_info.

(** A filter of another type than LOT_SIZE. *)
Definition other_filter (f : gmap string Value) : Prop :=
  exists ty, f !! "filterType" = Some ty /\ is_str ty "LOT_SIZE" = false.

(** An asset entry whose wallet balance [float] accepts. *)
Definition readable_balance (b : gmap string Value) : Prop :=
  exists x, wallet_balance b = Ok x.

(** The requests of a log that place an order. *)
Definition is_order (c : Call) : bool :=
  match c with
  | Call_futures_create_order _ => true
  | _ => false
  end.

(** *** More examples *)

(** An instrument with a price filter only, and an exchange that lists
    it. *)
Definition bare_entry : SymbolEntry.t :=
  {| SymbolEntry.symbol := "XRPUSDT";
     SymbolEntry.pricePrecision := 4;
     SymbolEntry.quantityPrecision := 1;
     SymbolEntry.filters := [ <["filterType" := VStr "PRICE_FILTER"]> ∅ ] |}.

Definition bare_exchange : Client :=
  {| futures_account := fun _ => Raise (ClientError "unreachable");
     futures_exchange_info := fun _ => Ok [bare_entry];
     futures_create_order := fun _ _ => Raise (ClientError "rejected") |}.

(** An exchange that is out of reach. *)
Definition down_exchange : Client :=
  {| futures_account := fun _ => Raise (ClientError "unreachable");
     futures_exchange_info := fun _ => Raise (ClientError "unreachable");
     futures_create_order := fun _ _ => Raise (ClientError "unreachable") |}.

(** A bot that has looked BTCUSDT up. *)
Definition btc_bot : BasicBot :=
  snd (get_symbol_info btc_exchange "BTCUSDT" new_bot).

(** An order reply without its status. *)
Definition truncated_order : gmap string Value :=
  <["orderId" := VInt 6]>
    (<["symbol" := VStr "BTCUSDT"]>
       (<["side" := VStr "SELL"]>
          (<["type" := VStr "LIMIT"]>
             (<["origQty" := VStr "0.020"]>
                (<["price" := VStr "50000.10"]> ∅))))).

(** The reply to a limit order that rests in the book: it has a price. *)
Definition resting_order : gmap string Value :=
  <["status" := VStr "NEW"]> truncated_order.



(** The keyword arguments of a market order and of a limit order. *)
Definition market_keys : list string :=
  ["symbol"; "side"; "type"; "quantity"]%string.

Definition limit_keys : list string :=
  ["symbol"; "side"; "type"; "timeInForce"; "quantity"; "price"]%string.

(** * Facts about the model *)

Import PyDecimal.

(** ** Powers of ten and the value of a decimal *)

Lemma pow10_pos e : (0 < 10 ^ e)%Q.
Proof. apply Qpower_0_lt. reflexivity. Qed.

Lemma pow10_add a b : (10 ^ (a + b) == 10 ^ a * 10 ^ b)%Q.
Proof. apply Qpower_plus. discriminate. Qed.

Lemma pow10_inject n : 0 <= n -> (inject_Z (10 ^ n) == 10 ^ n)%Q.
Proof. intros H. rewrite Zpower_Qpower by assumption. reflexivity. Qed.

Lemma value_scaled s c e e0 :
  e0 <= e -> (value (Finite s c e) == inject_Z (scaled s c e e0) * 10 ^ e0)%Q.
Proof.
  intros H. unfold value, scaled.
  rewrite inject_Z_mult, pow10_inject by lia.
  replace e with ((e - e0) + e0) at 1 by lia.
  rewrite pow10_add. ring.
Qed.

Lemma scale_lt a b e : (inject_Z a * 10 ^ e < inject_Z b * 10 ^ e)%Q <-> a < b.
Proof.
  rewrite (Zlt_Qlt a b). split; intros H.
  - apply Qmult_lt_r in H; [assumption | apply pow10_pos].
  - apply Qmult_lt_r; [apply pow10_pos | assumption].
Qed.

Lemma scale_le a b e : (inject_Z a * 10 ^ e <= inject_Z b * 10 ^ e)%Q <-> a <= b.
Proof.
  rewrite (Zle_Qle a b). split; intros H.
  - apply Qmult_le_r in H; [assumption | apply pow10_pos].
  - apply Qmult_le_r; [apply pow10_pos | assumption].
Qed.

Lemma scale_eq a b e : (inject_Z a * 10 ^ e == inject_Z b * 10 ^ e)%Q <-> a = b.
Proof.
  split; intros H.
  - apply Qmult_inj_r in H. + apply inject_Z_injective. exact H.
    + intros E. pose proof (pow10_pos e) as P. rewrite E in P. discriminate.
  - subst. reflexivity.
Qed.
Lemma digits_value_app l1 l2 a :
  digits_value (l1 ++ l2) a = digits_value l2 (digits_value l1 a).
Proof. revert a. induction l1 as [|d r IH]; intros a; simpl; [reflexivity | apply IH]. Qed.

Lemma digits_aux_acc fuel n acc :
  digits_aux fuel n acc = digits_aux fuel n [] ++ acc.
Proof.
  revert n acc. induction fuel as [|f IH]; intros n acc; simpl.
  - reflexivity.
  - destruct (n <? 10)%N; [reflexivity |].
    rewrite (IH _ (_ :: acc)), (IH _ [_]), <- app_assoc. reflexivity.
Qed.

Lemma digits_aux_value fuel n :
  (n < 10 * 2 ^ N.of_nat fuel)%N -> digits_value (digits_aux fuel n []) 0 = n.
Proof.
  revert n. induction fuel as [|f IH]; intros n Hn.
  - simpl in *. lia.
  - cbn [digits_aux]. destruct (N.ltb_spec n 10) as [Hlt | Hge].
    + simpl. lia.
    + rewrite digits_aux_acc, digits_value_app, IH.
      * simpl. pose proof (N.div_mod n 10). lia.
      * rewrite Nat2N.inj_succ, N.pow_succ_r' in Hn.
        apply N.Div0.div_lt_upper_bound. lia.
Qed.

Lemma digits_aux_small fuel n :
  (n < 10 * 2 ^ N.of_nat fuel)%N -> Forall (fun d => (d < 10)%N) (digits_aux fuel n []).
Proof.
  revert n. induction fuel as [|f IH]; intros n Hn.
  - simpl in *. constructor; [lia | constructor].
  - cbn [digits_aux]. destruct (N.ltb_spec n 10) as [Hlt | Hge].
    + constructor; [lia | constructor].
    + rewrite digits_aux_acc. apply Forall_app. split.
      * apply IH. rewrite Nat2N.inj_succ, N.pow_succ_r' in Hn.
        apply N.Div0.div_lt_upper_bound. lia.
      * constructor; [apply N.mod_lt; lia | constructor].
Qed.

Lemma digits_aux_length fuel n k :
  (n < 10 ^ N.of_nat (S k))%N -> (length (digits_aux fuel n []) <= S k)%nat.
Proof.
  revert n k. induction fuel as [|f IH]; intros n k Hn.
  - simpl. lia.
  - cbn [digits_aux]. destruct (N.ltb_spec n 10) as [Hlt | Hge].
    + simpl. lia.
    + destruct k as [|k].
      * simpl in Hn. lia.
      * rewrite digits_aux_acc, length_app. simpl.
        assert (length (digits_aux f (n / 10)%N []) <= S k)%nat; [| lia].
        apply IH. rewrite (Nat2N.inj_succ (S k)), N.pow_succ_r' in Hn.
        apply N.Div0.div_lt_upper_bound. lia.
Qed.

Lemma fuel_enough n : (n < 10 * 2 ^ N.of_nat (N.to_nat (N.log2 n)))%N.
Proof.
  rewrite N2Nat.id. destruct n as [|p]; [reflexivity |].
  pose proof (N.log2_spec (N.pos p) ltac:(lia)) as [_ H].
  rewrite N.pow_succ_r' in H. lia.
Qed.

Lemma N_digits_value n : digits_value (N_digits n) 0 = n.
Proof. apply digits_aux_value, fuel_enough. Qed.

Lemma N_digits_small n : Forall (fun d => (d < 10)%N) (N_digits n).
Proof. apply digits_aux_small, fuel_enough. Qed.

Lemma ndigits_le n k : 0 < k -> Z.of_N n < 10 ^ k -> ndigits n <= k.
Proof.
  intros Hk Hn. unfold ndigits, N_digits.
  destruct (Z.to_nat k) as [|k'] eqn:E; [lia |].
  assert (length (digits_aux (N.to_nat (N.log2 n)) n []) <= S k')%nat; [| lia].
  apply digits_aux_length.
  assert (Z.of_N (10 ^ N.of_nat (S k')) = 10 ^ k); [| lia].
  rewrite N2Z.inj_pow. f_equal. lia.
Qed.

Lemma N_digits_nonempty n : N_digits n <> [].
Proof.
  unfold N_digits. generalize (N.to_nat (N.log2 n)) as fuel. intros fuel.
  destruct fuel; simpl; [discriminate |].
  destruct (n <? 10)%N; [discriminate |].
  rewrite digits_aux_acc. intros H. apply app_eq_nil in H as [_ H]. discriminate.
Qed.

(** ** Digit characters and the text of a decimal *)

Lemma small_cases (d : N) :
  (d < 10)%N -> In d [0; 1; 2; 3; 4; 5; 6; 7; 8; 9]%N.
Proof.
  intros H. simpl.
  destruct d as [|p]; [auto |].
  do 9 (destruct p as [p|p|]; try lia; auto 12).
Qed.

Ltac by_digit d H :=
  apply small_cases in H; simpl in H;
  repeat (destruct H as [H | H]; [subst d; try reflexivity |]); try contradiction.

Lemma digit_of_digit_char d : (d < 10)%N -> digit_of_char (digit_char d) = Some d.
Proof. intros H. by_digit d H. Qed.

Lemma digit_char_plain d :
  (d < 10)%N ->
  let c := digit_char d in
  Ascii.eqb c "-" = false /\ Ascii.eqb c "+" = false /\
  Ascii.eqb c "." = false /\ Ascii.eqb c "e" = false /\ Ascii.eqb c "E" = false /\
  upper_ascii c = c /\ Ascii.eqb c "I" = false /\ Ascii.eqb c "N" = false /\
  Ascii.eqb c "S" = false.
Proof. intros H. by_digit d H; repeat split; reflexivity. Qed.

Lemma read_digits_chars ds :
  Forall (fun d => (d < 10)%N) ds -> read_digits (map digit_char ds) = Some ds.
Proof.
  induction 1 as [|d r Hd _ IH]; simpl; [reflexivity |].
  rewrite digit_of_digit_char, IH by assumption. reflexivity.
Qed.

Lemma split_at_none sep l :
  Forall (fun c => sep c = false) l -> split_at sep l = (l, None).
Proof.
  induction 1 as [|c r Hc _ IH]; simpl; [reflexivity |].
  rewrite Hc, IH. reflexivity.
Qed.

Lemma split_at_first sep l1 c l2 :
  Forall (fun c => sep c = false) l1 -> sep c = true ->
  split_at sep (l1 ++ c :: l2) = (l1, Some l2).
Proof.
  intros H Hc. induction H as [|x r Hx _ IH]; simpl.
  - rewrite Hc. reflexivity.
  - rewrite Hx, IH. reflexivity.
Qed.




Lemma digits_value_zeros k l : digits_value (repeat 0%N k ++ l) 0 = digits_value l 0.
Proof. induction k as [|k IH]; simpl; [reflexivity | exact IH]. Qed.

Lemma map_digit_repeat k : map digit_char (repeat 0%N k) = repeat "0"%char k.
Proof. induction k as [|k IH]; simpl; [reflexivity | now rewrite IH]. Qed.

Lemma point_suffix_map fp :
  match map digit_char fp with
  | [] => []
  | _ :: _ => "."%char :: map digit_char fp
  end = point_suffix fp.
Proof. destruct fp; reflexivity. Qed.

Lemma format_f_shape s c e p :
  0 <= p ->
  exists ip fp,
    format_f (Finite s c e) p = Ok (fixed_text s ip fp) /\
    ip <> [] /\
    Forall (fun d => (d < 10)%N) (ip ++ fp) /\
    length fp = Z.to_nat p /\
    digits_value (ip ++ fp) 0 = rescale c e (- p).
Proof.
  intros Hp. unfold format_f. destruct (Z.ltb_spec p 0) as [? | _]; [lia |].
  set (c' := rescale c e (- p)).
  pose proof (N_digits_small c') as Hsmall.
  pose proof (N_digits_value c') as Hval.
  pose proof (N_digits_nonempty c') as Hne.
  set (ds := N_digits c') in *.
  rewrite length_map.
  destruct (Z.ltb_spec (Z.of_nat (length ds) - p) 0) as [Hneg | Hpos].
  - exists [0%N], (repeat 0%N (Z.to_nat (- (Z.of_nat (length ds) - p))) ++ ds).
    repeat split.
    + unfold fixed_text, sign_chars.
      rewrite <- map_digit_repeat, <- map_app, point_suffix_map. reflexivity.
    + discriminate.
    + constructor; [lia |]. apply Forall_app. split; [| exact Hsmall].
      apply List.Forall_forall. intros x Hx. apply repeat_spec in Hx. lia.
    + rewrite length_app, repeat_length. lia.
    + change ([0%N] ++ ?l) with (repeat 0%N 1 ++ l).
      rewrite !digits_value_zeros. exact Hval.
  - remember (Z.to_nat (Z.of_nat (length ds) - p)) as d eqn:Ed0.
    assert (Hd : (d <= length ds)%nat) by lia.
    destruct d as [|d'] eqn:Ed.
    + exists [0%N], ds. repeat split.
      * unfold fixed_text, sign_chars. rewrite List.firstn_O, List.skipn_O.
        rewrite point_suffix_map. reflexivity.
      * discriminate.
      * constructor; [lia | exact Hsmall].
      * lia.
      * exact Hval.
    + exists (firstn d ds), (skipn d ds). rewrite Ed. repeat split.
      * unfold fixed_text, sign_chars.
        rewrite <- Ed, firstn_map, skipn_map, point_suffix_map.
        destruct ds as [|x r]; [contradiction |]. rewrite Ed. reflexivity.
      * destruct ds; [contradiction | discriminate].
      * rewrite <- Ed, firstn_skipn. exact Hsmall.
      * rewrite <- Ed, length_skipn. lia.
      * rewrite <- Ed, firstn_skipn. exact Hval.
Qed.


Lemma chars_no_dot ds :
  Forall small ds -> Forall (fun c => is_dot c = false) (map digit_char ds).
Proof.
  induction 1 as [|d r Hd _ IH]; simpl; constructor; [| exact IH].
  apply (digit_char_plain d Hd).
Qed.

Lemma chars_no_exp_mark ds :
  Forall small ds -> Forall (fun c => is_exp_mark c = false) (map digit_char ds).
Proof.
  induction 1 as [|d r Hd _ IH]; simpl; constructor; [| exact IH].
  destruct (digit_char_plain d Hd) as (_ & _ & _ & He & HE & _).
  unfold is_exp_mark. cbv zeta in He, HE. rewrite He, HE. reflexivity.
Qed.

Lemma read_sign_fixed s d r rest :
  small d ->
  read_sign (sign_chars s ++ map digit_char (d :: r) ++ rest)
  = (s, map digit_char (d :: r) ++ rest).
Proof.
  intros Hd. destruct (digit_char_plain d Hd) as (Hm & Hp & _).
  cbv zeta in Hm, Hp.
  destruct s; simpl; [reflexivity |]. rewrite Hm, Hp. reflexivity.
Qed.


Lemma split_mantissa ip fp :
  Forall small (ip ++ fp) ->
  split_at is_dot (map digit_char ip ++ point_suffix fp)
  = (map digit_char ip, match fp with [] => None | _ => Some (map digit_char fp) end).
Proof.
  intros H. apply Forall_app in H as [Hi Hf].
  destruct fp as [|x fr].
  - simpl. rewrite app_nil_r. apply split_at_none, chars_no_dot, Hi.
  - unfold point_suffix. apply split_at_first; [apply chars_no_dot, Hi | reflexivity].
Qed.

Lemma read_number_fixed ip fp :
  ip <> [] -> Forall small (ip ++ fp) ->
  read_number (map digit_char ip ++ point_suffix fp)
  = Some (digits_value (ip ++ fp) 0, - Z.of_nat (length fp)).
Proof.
  intros Hne H. unfold read_number.
  rewrite split_at_none.
  2:{ apply Forall_app in H as H'. destruct H' as [Hi Hf].
      apply Forall_app. split; [apply chars_no_exp_mark, Hi |].
      destruct fp; [constructor |]. unfold point_suffix.
      constructor; [reflexivity | apply chars_no_exp_mark, Hf]. }
  rewrite split_mantissa by exact H.
  apply Forall_app in H as [Hi Hf].
  rewrite (read_digits_chars ip Hi).
  replace (read_digits match match fp with [] => None | _ :: _ => Some (map digit_char fp) end with
                       | Some f => f | None => [] end) with (Some fp).
  2:{ destruct fp; [reflexivity |]. symmetry. apply read_digits_chars, Hf. }
  destruct ip as [|d r]; [contradiction |]. reflexivity.
Qed.

Lemma of_string_fixed_text s ip fp :
  ip <> [] -> Forall small (ip ++ fp) ->
  of_string (fixed_text s ip fp)
  = Some (Finite s (digits_value (ip ++ fp) 0) (- Z.of_nat (length fp))).
Proof.
  intros Hne H. unfold of_string, fixed_text.
  rewrite list_ascii_of_string_of_list_ascii.
  destruct ip as [|d r] eqn:Eip; [contradiction |].
  assert (Hd : small d) by (inversion H; assumption).
  rewrite read_sign_fixed by exact Hd.
  rewrite <- Eip in *. rewrite read_number_fixed by (subst; assumption).
  destruct (digit_char_plain d Hd) as (_ & _ & _ & _ & _ & Hu & HI & HN & HS).
  cbv zeta in Hu, HI, HN, HS.
  subst ip. cbn [map app string_of_list_ascii upper String.eqb].
  rewrite Hu, HI, HN, HS. reflexivity.
Qed.

Lemma fraction_part_fixed_text s ip fp :
  ip <> [] -> Forall small (ip ++ fp) ->
  fraction_part (fixed_text s ip fp) = map digit_char fp.
Proof.
  intros Hne H. unfold fraction_part, fixed_text.
  rewrite list_ascii_of_string_of_list_ascii.
  assert (E : split_at is_dot (sign_chars s ++ map digit_char ip ++ point_suffix fp)
              = (sign_chars s ++ map digit_char ip,
                 match fp with [] => None | _ => Some (map digit_char fp) end)).
  { destruct s; simpl; rewrite split_mantissa by exact H; reflexivity. }
  rewrite E. destruct fp; reflexivity.
Qed.

(** ** Comparison, rounding and the quantity normalizer *)

Lemma lt_finite sa ca ea sb cb eb :
  lt (Finite sa ca ea) (Finite sb cb eb)
  = Ok (if Qlt_le_dec (value (Finite sa ca ea)) (value (Finite sb cb eb)) then true else false).
Proof.
  unfold lt, cmp. set (e0 := Z.min ea eb).
  pose proof (value_scaled sa ca ea e0 ltac:(lia)) as Ha.
  pose proof (value_scaled sb cb eb e0 ltac:(lia)) as Hb.
  destruct (Qlt_le_dec _ _) as [H | H]; rewrite Ha, Hb in H.
  - apply scale_lt in H. apply Z.compare_lt_iff in H. rewrite H. reflexivity.
  - apply scale_le in H. destruct (Z.compare_spec (scaled sa ca ea e0) (scaled sb cb eb e0)); try reflexivity. lia.
Qed.

Lemma round_half_even_exact n shift :
  0 <= shift -> round_half_even (n * 10 ^ Z.to_N shift)%N shift = n.
Proof.
  intros Hs. unfold round_half_even.
  set (P := (10 ^ Z.to_N shift)%N).
  assert (HP : (0 < P)%N) by (apply N.neq_0_lt_0, N.pow_nonzero; discriminate).
  rewrite N.Div0.mod_mul, N.div_mul by lia.
  destruct (N.compare_spec (2 * 0) P); try reflexivity; lia.
Qed.

Lemma rescale_multiple c e x n :
  (inject_Z (Z.of_N c) * 10 ^ e == inject_Z n * 10 ^ x)%Q ->
  Z.of_N (rescale c e x) = n.
Proof.
  intros H. unfold rescale.
  destruct (N.eqb_spec c 0) as [-> | Hc].
  - change (inject_Z (Z.of_N 0)) with (inject_Z 0 * 1)%Q in H.
    assert (E : (inject_Z 0 * 10 ^ x == inject_Z n * 10 ^ x)%Q).
    { rewrite <- H. ring. }
    apply scale_eq in E. simpl. lia.
  - destruct (Z.geb_spec e x) as [Hge | Hlt].
    + assert (E : (inject_Z (Z.of_N c * 10 ^ (e - x)) * 10 ^ x == inject_Z n * 10 ^ x)%Q).
      { rewrite <- H, inject_Z_mult, pow10_inject by lia.
        replace e with ((e - x) + x) at 2 by lia. rewrite pow10_add. ring. }
      apply scale_eq in E. rewrite N2Z.inj_mul, N2Z.inj_pow, Z2N.id by lia.
      exact E.
    + assert (E : (inject_Z (Z.of_N c) * 10 ^ e == inject_Z (n * 10 ^ (x - e)) * 10 ^ e)%Q).
      { rewrite H, inject_Z_mult, pow10_inject by lia.
        replace x with ((x - e) + e) at 1 by lia. rewrite pow10_add. ring. }
      apply scale_eq in E.
      assert (Hn : 0 <= n) by nia.
      replace c with (Z.to_N n * 10 ^ Z.to_N (x - e))%N.
      * rewrite round_half_even_exact by lia. lia.
      * apply N2Z.inj. rewrite N2Z.inj_mul, N2Z.inj_pow, !Z2N.id by lia. lia.
Qed.

Lemma fix_exact s c e :
  Z.of_N c < 10 ^ prec -> Etiny <= e <= Etop -> fix_ s c e = Ok (Finite s c e).
Proof.
  intros Hc He. unfold fix_.
  destruct (N.eqb_spec c 0) as [-> | Hne].
  - f_equal. f_equal. unfold Etiny, Etop, Emax, Emin, prec in *. lia.
  - pose proof (ndigits_le c prec ltac:(reflexivity) Hc) as Hd.
    destruct (Z.gtb_spec (ndigits c + e - prec) Etop) as [H | _]; [lia |].
    destruct (Z.ltb_spec e (Z.max (ndigits c + e - prec) Etiny)) as [H | _]; [lia |].
    reflexivity.
Qed.


Lemma Qabs_value s c e :
  (Qabs (value (Finite s c e)) == inject_Z (Z.of_N c) * 10 ^ e)%Q.
Proof.
  unfold value. rewrite Qabs_Qmult.
  rewrite (Qabs_pos (10 ^ e)) by (apply Qlt_le_weak, pow10_pos).
  apply Qmult_comp; [| reflexivity].
  unfold signed. destruct s.
  - rewrite inject_Z_opp, Qabs_opp. apply Qabs_pos.
    rewrite <- (Zle_Qle 0). lia.
  - apply Qabs_pos. rewrite <- (Zle_Qle 0). lia.
Qed.

Lemma scaled_back c e e0 :
  e0 <= e -> (inject_Z (c * 10 ^ (e - e0)) * 10 ^ e0 == inject_Z c * 10 ^ e)%Q.
Proof.
  intros H. rewrite inject_Z_mult, pow10_inject by lia.
  replace e with ((e - e0) + e0) at 2 by lia.
  rewrite pow10_add. ring.
Qed.

Lemma floordiv_finite sq cq eq cs es :
  cs <> 0%N ->
  Z.of_N cq * 10 ^ (eq - Z.min eq es) / (Z.of_N cs * 10 ^ (es - Z.min eq es)) < 10 ^ prec ->
  floordiv (Finite sq cq eq) (Finite false cs es)
  = Ok (Finite sq (Z.to_N (Z.of_N cq * 10 ^ (eq - Z.min eq es)
                           / (Z.of_N cs * 10 ^ (es - Z.min eq es)))) 0).
Proof.
  intros Hcs Hk. unfold floordiv.
  destruct (N.eqb_spec cs 0) as [? | _]; [contradiction |].
  apply Z.ltb_lt in Hk. rewrite Hk, xorb_false_r. reflexivity.
Qed.

Lemma normalize_finite rules sq cq eq cs es :
  let q := Finite sq cq eq in
  let p := quantity_precision rules in
  let e0 := Z.min eq es in
  step_size rules = Finite false cs es ->
  cs <> 0%N ->
  0 <= p ->
  lt q (min_qty rules) = Ok false ->
  (exists m : Z, value (step_size rules) == inject_Z m * 10 ^ (- p))%Q ->
  (Qabs (value q) < 10 ^ (prec + es))%Q ->
  Etiny <= es <= Etop ->
  exists text r,
    normalize rules q = Ok text /\
    of_string text = Some r /\
    is_finite r = true /\
    length (fraction_part text) = Z.to_nat p /\
    (value r == inject_Z (Z.quot (scaled sq cq eq e0) (scaled false cs es e0))
                * value (step_size rules))%Q.
Proof.
  intros q p e0 Hstep Hcs Hp Hlt [m Hm] Hbound Hrange.
  set (A := Z.of_N cq * 10 ^ (eq - e0)).
  set (D := 10 ^ (es - e0)).
  set (B := Z.of_N cs * D).
  assert (HD : 0 < D) by (apply Z.pow_pos_nonneg; lia).
  assert (HB : 0 < B) by nia.
  assert (HA : 0 <= A) by (subst A; pose proof (Z.pow_nonneg 10 (eq - e0)); nia).
  assert (HAD : A < 10 ^ prec * D).
  { subst q. rewrite Qabs_value in Hbound.
    assert (H1 : A < 1 * 10 ^ (prec + es - e0)).
    { apply (scale_lt _ _ e0). subst A.
      rewrite !scaled_back by (unfold prec; lia).
      rewrite Qmult_1_l. exact Hbound. }
    subst D. rewrite <- Z.pow_add_r by (unfold prec; lia).
    replace (prec + (es - e0)) with (prec + es - e0) by lia. lia. }
  set (k := A / B).
  assert (Hk0 : 0 <= k) by (apply Z.div_pos; lia).
  assert (HkB : k * B <= A) by (rewrite Z.mul_comm; apply Z.mul_div_le; lia).
  assert (Hkcs : k * Z.of_N cs < 10 ^ prec) by (subst B; nia).
  assert (Hk : k < 10 ^ prec) by nia.
  unfold normalize. rewrite Hlt. cbn [bind]. rewrite Hstep.
  unfold q. rewrite floordiv_finite by (fold e0; fold A; fold D; fold B; fold k; assumption).
  fold e0. fold A. fold D. fold B. fold k. cbn [bind].
  unfold mul. rewrite xorb_false_r, Z.add_0_l.
  rewrite fix_exact by (try rewrite N2Z.inj_mul, Z2N.id; assumption).
  cbn [bind]. fold p.
  destruct (format_f_shape sq (Z.to_N k * cs) es p Hp)
    as (ip & fp & Hfmt & Hne & Hsmall & Hlen & Hval).
  exists (fixed_text sq ip fp), (Finite sq (digits_value (ip ++ fp) 0) (- Z.of_nat (length fp))).
  split; [exact Hfmt |].
  split; [apply of_string_fixed_text; assumption |].
  split; [reflexivity |].
  split; [rewrite fraction_part_fixed_text, length_map by assumption; exact Hlen |].
  rewrite Hstep in Hm.
  assert (Hres : Z.of_N (rescale (Z.to_N k * cs) es (- p)) = k * m).
  { apply rescale_multiple.
    rewrite N2Z.inj_mul, Z2N.id, !inject_Z_mult by assumption.
    rewrite <- !Qmult_assoc. apply Qmult_comp; [reflexivity |].
    exact Hm. }
  rewrite Hval, Hlen, Z2Nat.id by assumption.
  assert (Hquot : Z.quot (scaled sq cq eq e0) (scaled false cs es e0) = signed sq (Z.to_N k)).
  { unfold scaled, signed. fold D. fold B. destruct sq.
    - rewrite Z.mul_opp_l. fold A. rewrite Z.quot_opp_l, Z.quot_div_nonneg by lia.
      fold k. lia.
    - fold A. rewrite Z.quot_div_nonneg by lia. fold k. lia. }
  rewrite Hquot, Hm.
  unfold value. rewrite Qmult_assoc. apply Qmult_comp; [| reflexivity].
  rewrite <- inject_Z_mult. apply inject_Z_injective.
  unfold signed. rewrite Hres, Z2N.id by assumption. destruct sq; lia.
Qed.

Lemma value_pos_inv s c e : (0 < value (Finite s c e))%Q -> s = false /\ c <> 0%N.
Proof.
  intros H. unfold value in H.
  assert (H0 : (inject_Z 0 * 10 ^ e < inject_Z (signed s c) * 10 ^ e)%Q).
  { rewrite Qmult_0_l. exact H. }
  apply scale_lt in H0. unfold signed in H0. destruct s; split; try lia; reflexivity.
Qed.

Lemma lt_not_below_finite a b :
  is_finite a = true -> is_finite b = true ->
  (value b <= value a)%Q -> lt a b = Ok false.
Proof.
  destruct a as [sa ca ea | |], b as [sb cb eb | |]; try discriminate.
  intros _ _ H. rewrite lt_finite.
  destruct (Qlt_le_dec _ _) as [H' | _]; [| reflexivity].
  exfalso. exact (Qlt_not_le _ _ H' H).
Qed.

Lemma lt_below a b : below a b -> lt a b = Ok true.
Proof.
  destruct a as [sa ca ea | [|] | ?], b as [sb cb eb | [|] | ?];
    simpl; try contradiction; try reflexivity.
  intros H. change (lt (Finite sa ca ea) (Finite sb cb eb) = Ok true).
  rewrite lt_finite. destruct (Qlt_le_dec _ _) as [_ | H']; [reflexivity |].
  exfalso. exact (Qlt_not_le _ _ H H').
Qed.

Lemma lt_accepts a b : lt a b = Ok false -> is_finite a = true -> is_finite b = true ->
  (value b <= value a)%Q.
Proof.
  destruct a as [sa ca ea | |], b as [sb cb eb | |]; try discriminate.
  intros H _ _. rewrite lt_finite in H.
  destruct (Qlt_le_dec _ _) as [_ | H']; [discriminate | exact H'].
Qed.

Lemma quot_floor_le A B : 0 <= A -> 0 < B -> Z.quot A B * B <= A.
Proof.
  intros HA HB. rewrite Z.quot_div_nonneg by lia.
  rewrite Z.mul_comm. apply Z.mul_div_le. lia.
Qed.

Lemma quot_at_least A B m : 0 < B -> m * B <= A -> m <= Z.quot A B.
Proof.
  intros HB H. destruct (Z.le_gt_cases 0 A) as [HA | HA].
  - rewrite Z.quot_div_nonneg by lia. apply Z.div_le_lower_bound; lia.
  - replace A with (- (- A)) by lia.
    rewrite Z.quot_opp_l, Z.quot_div_nonneg by lia.
    assert (- A / B <= - m); [| lia].
    apply Z.div_le_upper_bound; lia.
Qed.


Lemma format_f_negative d p : p < 0 -> exists e, format_f d p = Raise e.
Proof.
  intros H. unfold format_f. destruct (Z.ltb_spec p 0); [| lia]. eauto.
Qed.

(** What an accepted quantity went through. *)
Lemma normalize_accepted rules q text :
  normalize rules q = Ok text ->
  exists quotient adjusted,
    lt q (min_qty rules) = Ok false /\
    floordiv q (step_size rules) = Ok quotient /\
    mul quotient (step_size rules) = Ok adjusted /\
    format_f adjusted (quantity_precision rules) = Ok text.
Proof.
  unfold normalize. intros H.
  destruct (lt q (min_qty rules)) as [[|] | ?] eqn:Hl; try discriminate.
  cbn [bind] in H.
  destruct (floordiv q (step_size rules)) as [quotient | ?] eqn:Hd; try discriminate.
  cbn [bind] in H.
  destruct (mul quotient (step_size rules)) as [adjusted | ?] eqn:Hm; try discriminate.
  cbn [bind] in H.
  exists quotient, adjusted. repeat split; assumption.
Qed.







(** ** The rules cache, the balance and the order gateway *)

Lemma upper_ascii_idem c : upper_ascii (upper_ascii c) = upper_ascii c.
Proof.
  destruct c as [[] [] [] [] [] [] [] []]; reflexivity.
Qed.

Lemma upper_idem s : upper (upper s) = upper s.
Proof.
  induction s as [|c r IH]; simpl; [reflexivity |].
  rewrite upper_ascii_idem, IH. reflexivity.
Qed.

Section Cache.
Variable client : Client.

Lemma get_symbol_info_hit symbol self info :
  _symbol_info_cache self !! upper symbol = Some info ->
  get_symbol_info client symbol self = (Ok info, self).
Proof. intros H. unfold get_symbol_info. rewrite H. reflexivity. Qed.

Lemma get_symbol_info_ok symbol self info self' :
  get_symbol_info client symbol self = (Ok info, self') ->
  _symbol_info_cache self' !! upper symbol = Some info /\
  (self' = self \/
   _symbol_info_cache self !! upper symbol = None /\
   self' = cached (upper symbol) info (sent Call_futures_exchange_info self)).
Proof.
  unfold get_symbol_info.
  destruct (_symbol_info_cache self !! upper symbol) as [i |] eqn:Hc.
  - intros [= <- <-]. auto.
  - destruct (futures_exchange_info client (requests self)) as [ei | e]; cbn [bind].
    + destruct (find_symbol ei (upper symbol)) as [s |].
      * destruct (extract_info s) as [i | e]; intros [= <- <-].
        split; [| right; auto]. cbn. apply lookup_insert_eq.
      * intros [=].
    + intros [=].
Qed.

Lemma get_symbol_info_upper symbol self :
  get_symbol_info client symbol self = get_symbol_info client (upper symbol) self.
Proof. unfold get_symbol_info. rewrite upper_idem. reflexivity. Qed.



Lemma find_symbol_none symbols symbol_upper :
  Forall (fun s => SymbolEntry.symbol s <> symbol_upper) symbols ->
  find_symbol symbols symbol_upper = None.
Proof.
  unfold find_symbol. induction 1 as [|s r Hs _ IH]; simpl; [reflexivity |].
  destruct (String.eqb_spec (SymbolEntry.symbol s) symbol_upper); [contradiction | exact IH].
Qed.

Lemma find_symbol_named symbols symbol_upper s :
  find_symbol symbols symbol_upper = Some s ->
  SymbolEntry.symbol s = symbol_upper /\ In s symbols.
Proof.
  unfold find_symbol. intros H. apply find_some in H as [Hin He].
  apply String.eqb_eq in He. auto.
Qed.


Lemma coherent_new exchange_info : coherent exchange_info new_bot.
Proof. intros k info H. cbn in H. rewrite lookup_empty in H. discriminate. Qed.

Lemma coherent_step symbol self exchange_info :
  (forall ei, futures_exchange_info client (requests self) = Ok ei ->
              ei = exchange_info) ->
  coherent exchange_info self ->
  coherent exchange_info (snd (get_symbol_info client symbol self)).
Proof.
  intros Hstatic Hco. unfold get_symbol_info.
  destruct (_symbol_info_cache self !! upper symbol) as [i |] eqn:Hc; [exact Hco |].
  destruct (futures_exchange_info client (requests self)) as [ei | e] eqn:Hr; cbn [bind].
  - rewrite (Hstatic ei eq_refl) in *.
    destruct (find_symbol exchange_info (upper symbol)) as [s |] eqn:Hf.
    + destruct (extract_info s) as [i | e] eqn:He; cbn; [| exact Hco].
      intros k info Hk. cbn in Hk.
      destruct (decide (upper symbol = k)) as [<- | Hne].
      * rewrite lookup_insert_eq in Hk. injection Hk as <-. eauto.
      * rewrite lookup_insert_ne in Hk by exact Hne. exact (Hco _ _ Hk).
    + exact Hco.
  - exact Hco.
Qed.
End Cache.

Lemma positive_balances_filter assets :
  Forall (fun b => exists x, wallet_balance b = Ok x) assets ->
  positive_balances assets = Ok (List.filter wallet_positive assets).
Proof.
  induction 1 as [|b r [x Hx] _ IH]; [reflexivity |].
  cbn [positive_balances List.filter]. unfold wallet_positive at 1.
  rewrite Hx, IH. reflexivity.
Qed.

Lemma validate_and_format_quantity_found client symbol quantity self info self1 q :
  get_symbol_info client symbol self = (Ok info, self1) ->
  of_string quantity = Some q ->
  _validate_and_format_quantity client symbol quantity self
  = (normalize info q, self1).
Proof.
  intros Hi Hq. unfold _validate_and_format_quantity, Decimal_of_value.
  rewrite Hi, Hq. reflexivity.
Qed.

Lemma validate_and_format_quantity_failed client symbol quantity self e self1 :
  get_symbol_info client symbol self = (Raise e, self1) ->
  _validate_and_format_quantity client symbol quantity self = (Raise e, self1).
Proof.
  intros Hi. unfold _validate_and_format_quantity. rewrite Hi. reflexivity.
Qed.

(** * The properties of the specification *)

(** ** The quantity normalizer *)

(** C1, as amended.  Take rules whose step is a positive number that is a
    whole multiple of [10 ** -quantityPrecision], with [quantityPrecision]
    not negative and the exponent of the step inside the context's range,
    and a finite quantity [q] that is at least the minimum, not negative and
    below [10 ** 28] units of the step's last place.  Then [normalize]
    returns a text; the decimal it reads as is a whole multiple of the step
    and at most [q].  With minimum 0.001, step 0.001 and precision 3, the
    quantity 0.0035 gives "0.003". *)
Theorem normalize_multiple_of_step :
  (forall (rules : SymbolInfo) (q : Decimal),
      is_finite (step_size rules) = true ->
      (0 < value (step_size rules))%Q ->
      is_finite (min_qty rules) = true ->
      is_finite q = true ->
      (value (min_qty rules) <= value q)%Q ->
      (0 <= value q)%Q ->
      0 <= quantity_precision rules ->
      (exists m : Z,
          value (step_size rules)
          == inject_Z m * 10 ^ (- quantity_precision rules))%Q ->
      (value q < 10 ^ (prec + exponent (step_size rules)))%Q ->
      Etiny <= exponent (step_size rules) <= Etop ->
      exists text r,
        normalize rules q = Ok text /\
        of_string text = Some r /\
        is_finite r = true /\
        (exists k : Z, value r == inject_Z k * value (step_size rules))%Q /\
        (value r <= value q)%Q) /\
  normalize btc_rules quantity_0_0035 = Ok "0.003"%string.
Proof.
  split; [| vm_compute; reflexivity].
  intros rules q Hsf Hspos Hmf Hqf Hge Hq0 Hp Halign Hbound Hrange.
  destruct q as [sq cq eq | |]; try discriminate.
  destruct (step_size rules) as [ss cs es | |] eqn:Hstep; try discriminate.
  apply value_pos_inv in Hspos as Hs. destruct Hs as [-> Hcs].
  cbn [exponent] in *.
  destruct (normalize_finite rules sq cq eq cs es Hstep Hcs Hp)
    as (text & r & Hn & Hparse & Hfin & _ & Hval).
  - apply lt_not_below_finite; [reflexivity | assumption | assumption].
  - rewrite Hstep. exact Halign.
  - rewrite Qabs_pos by assumption. exact Hbound.
  - exact Hrange.
  - exists text, r. repeat split; try assumption.
    + eexists. rewrite Hstep in Hval. exact Hval.
    + rewrite Hval, Hstep.
      set (e0 := Z.min eq es).
      rewrite (value_scaled false cs es e0), (value_scaled sq cq eq e0) by lia.
      rewrite Qmult_assoc, <- inject_Z_mult. apply scale_le.
      apply quot_floor_le.
      * rewrite (value_scaled sq cq eq e0) in Hq0 by lia.
        apply (scale_le 0 _ e0). rewrite Qmult_0_l. exact Hq0.
      * unfold scaled, signed. pose proof (Z.pow_pos_nonneg 10 (es - e0)). nia.
Qed.

(** The hypotheses of C1 hold of the scenario's rules and of 0.0035. *)
Lemma normalize_multiple_of_step_witness :
  exists text r,
    normalize btc_rules quantity_0_0035 = Ok text /\
    of_string text = Some r /\
    is_finite r = true /\
    (exists k : Z, value r == inject_Z k * value (step_size btc_rules))%Q /\
    (value r <= value quantity_0_0035)%Q.
Proof.
  apply (proj1 normalize_multiple_of_step).
  - reflexivity.
  - vm_compute. reflexivity.
  - reflexivity.
  - reflexivity.
  - apply Qle_bool_iff. vm_compute. reflexivity.
  - apply Qle_bool_iff. vm_compute. reflexivity.
  - cbn. lia.
  - exists 1. vm_compute. reflexivity.
  - vm_compute. reflexivity.
  - vm_compute. split; discriminate.
Defined.

(** C1 as stated fails: the step is positive and 1e+30 is above the
    minimum, yet the quotient has more than 28 digits and [//] raises
    InvalidOperation (DivisionImpossible) instead of returning. *)
Lemma normalize_large_quantity_rejected :
  (0 < value (step_size btc_rules))%Q /\
  (value (min_qty btc_rules) <= value quantity_1e30)%Q /\
  normalize btc_rules quantity_1e30 = Raise DecimalInvalidOperation.
Proof.
  split; [vm_compute; reflexivity |].
  split; [apply Qle_bool_iff; vm_compute; reflexivity |].
  vm_compute. reflexivity.
Qed.

(** Each further hypothesis of C1 is needed.  A step with more decimals
    than the precision: 0.0006 in steps of 0.0003 is printed "0.001", which
    is above the request and lies between 3 and 4 steps. *)
Lemma fine_step_rounds_up :
  normalize fine_step_rules quantity_0_0006 = Ok "0.001"%string /\
  of_string "0.001" = Some (Finite false 1 (-3)) /\
  (value quantity_0_0006 < value (Finite false 1 (-3)))%Q /\
  (value (step_size fine_step_rules) * (3 # 1) < value (Finite false 1 (-3)))%Q /\
  (value (Finite false 1 (-3)) < value (step_size fine_step_rules) * (4 # 1))%Q.
Proof. repeat split; vm_compute; reflexivity. Qed.

(** A negative quantity is truncated towards zero, hence upwards. *)
Lemma negative_quantity_rounds_up :
  normalize signed_rules quantity_minus_0_0035 = Ok "-0.003"%string /\
  of_string "-0.003" = Some (Finite true 3 (-3)) /\
  (value quantity_minus_0_0035 < value (Finite true 3 (-3)))%Q.
Proof. repeat split; vm_compute; reflexivity. Qed.

(** A product of 29 digits is rounded to 28, here upwards. *)
Lemma long_product_rounds_up :
  normalize threes_rules quantity_29_digits
  = Ok "30000000000000000000000000000"%string /\
  of_string "30000000000000000000000000000"
  = Some (Finite false 30000000000000000000000000000 0) /\
  (value quantity_29_digits
   < value (Finite false 30000000000000000000000000000 0))%Q.
Proof. repeat split; vm_compute; reflexivity. Qed.

(** A step beyond the exponent range makes the product overflow. *)
Lemma far_step_overflows :
  normalize far_rules (step_size far_rules) = Raise DecimalOverflow.
Proof. vm_compute. reflexivity. Qed.

(** C2, as amended.  Take rules whose step is a positive number that is a
    whole multiple of [10 ** -quantityPrecision] and has its exponent inside
    the context's range, and whose minimum is a whole multiple of the step;
    take a finite quantity whose magnitude is below [10 ** 28] units of the
    step's last place.  If [normalize] accepts it, the text returned reads
    as a whole multiple of the step that is at least the minimum. *)
Theorem normalize_at_least_minimum :
  forall (rules : SymbolInfo) (q : Decimal) (text : string),
    normalize rules q = Ok text ->
    is_finite q = true ->
    is_finite (step_size rules) = true ->
    (0 < value (step_size rules))%Q ->
    is_finite (min_qty rules) = true ->
    (exists m : Z,
        value (min_qty rules) == inject_Z m * value (step_size rules))%Q ->
    (exists m : Z,
        value (step_size rules)
        == inject_Z m * 10 ^ (- quantity_precision rules))%Q ->
    (Qabs (value q) < 10 ^ (prec + exponent (step_size rules)))%Q ->
    Etiny <= exponent (step_size rules) <= Etop ->
    exists r,
      of_string text = Some r /\
      is_finite r = true /\
      (exists k : Z, value r == inject_Z k * value (step_size rules))%Q /\
      (value (min_qty rules) <= value r)%Q.
Proof.
  intros rules q text Hacc Hqf Hsf Hspos Hmf [m Hmin] Halign Hbound Hrange.
  destruct (normalize_accepted _ _ _ Hacc) as (quo & adj & Hlt & _ & _ & Hfmt).
  assert (Hp : 0 <= quantity_precision rules).
  { destruct (Z.le_gt_cases 0 (quantity_precision rules)) as [H | H]; [exact H |].
    destruct (format_f_negative adj _ H) as [e He]. congruence. }
  pose proof (lt_accepts _ _ Hlt Hqf Hmf) as Hge.
  destruct q as [sq cq eq | |]; try discriminate.
  destruct (step_size rules) as [ss cs es | |] eqn:Hstep; try discriminate.
  apply value_pos_inv in Hspos as Hs. destruct Hs as [-> Hcs].
  cbn [exponent] in *.
  destruct (normalize_finite rules sq cq eq cs es Hstep Hcs Hp Hlt)
    as (text' & r & Hn & Hparse & Hfin & _ & Hval).
  - rewrite Hstep. exact Halign.
  - exact Hbound.
  - exact Hrange.
  - rewrite Hacc in Hn. injection Hn as <-.
    exists r. repeat split; try assumption.
    + eexists. rewrite Hstep in Hval. exact Hval.
    + rewrite Hval, Hmin, Hstep.
      apply Qmult_le_compat_r; [| apply Qlt_le_weak, Hspos].
      rewrite <- Zle_Qle.
      set (e0 := Z.min eq es).
      apply quot_at_least.
      * unfold scaled, signed. pose proof (Z.pow_pos_nonneg 10 (es - e0)). nia.
      * apply (scale_le _ _ e0).
        rewrite inject_Z_mult, <- Qmult_assoc, <- !value_scaled by lia.
        rewrite <- Hmin. exact Hge.
Qed.

(** The hypotheses of C2 hold of the scenario's rules and of 0.0035, which
    is accepted as "0.003". *)
Lemma normalize_at_least_minimum_witness :
  exists r,
    of_string "0.003" = Some r /\
    is_finite r = true /\
    (exists k : Z, value r == inject_Z k * value (step_size btc_rules))%Q /\
    (value (min_qty btc_rules) <= value r)%Q.
Proof.
  apply (normalize_at_least_minimum btc_rules quantity_0_0035).
  - vm_compute. reflexivity.
  - reflexivity.
  - reflexivity.
  - vm_compute. reflexivity.
  - reflexivity.
  - exists 1. vm_compute. reflexivity.
  - exists 1. vm_compute. reflexivity.
  - vm_compute. reflexivity.
  - vm_compute. split; discriminate.
Defined.

(** C2 as stated fails: with minimum 0.0015 and step 0.001 the quantity
    0.0018 is accepted and returned as "0.001", which is below the
    minimum. *)
Lemma normalize_returns_below_minimum :
  normalize offset_rules quantity_0_0018 = Ok "0.001"%string /\
  of_string "0.001" = Some (Finite false 1 (-3)) /\
  (value (Finite false 1 (-3)) < value (min_qty offset_rules))%Q.
Proof. repeat split; vm_compute; reflexivity. Qed.

(** C3.  A quantity below the minimum is rejected with [BelowMinimum],
    whatever the rules; the infinities are ordered as numbers are. *)
Theorem normalize_below_minimum :
  forall (rules : SymbolInfo) (q : Decimal),
    below q (min_qty rules) -> normalize rules q = Raise BelowMinimum.
Proof.
  intros rules q H. unfold normalize. rewrite (lt_below _ _ H). reflexivity.
Qed.

(** The scenario of C3: minimum 0.001, step 0.001, precision 3, and the
    quantity 0.0005. *)
Lemma normalize_below_minimum_scenario :
  normalize btc_rules quantity_0_0005 = Raise BelowMinimum.
Proof.
  apply normalize_below_minimum. vm_compute. reflexivity.
Defined.




(** A NaN step gives the text "NaN". *)
Lemma nan_step_text :
  normalize nan_step_rules quantity_0_0035 = Ok "NaN"%string.
Proof. vm_compute. reflexivity. Qed.

(** ** The order gateway: mapping a raw order *)

(** C5.  [_format_order_response] reads nothing but its argument.  On a
    record that holds the six fields, with a quantity (and a price, when
    there is one) that [float] accepts, it returns the order record made of
    those fields; a record without a price field gets the price
    [float(0)]. *)
Theorem format_order_response_total :
  forall (order : gmap string Value)
         (order_id symbol side type orig_qty status : Value)
         (quantity : PyFloat.t),
    order !! "orderId" = Some order_id ->
    order !! "symbol" = Some symbol ->
    order !! "side" = Some side ->
    order !! "type" = Some type ->
    order !! "origQty" = Some orig_qty ->
    order !! "status" = Some status ->
    PyFloat.of_value orig_qty = Ok quantity ->
    (forall p, order !! "price" = Some p -> exists x, PyFloat.of_value p = Ok x) ->
    exists price,
      _format_order_response order
      = Ok {| OrderRecord.order_id := order_id;
              OrderRecord.symbol := symbol;
              OrderRecord.side := side;
              OrderRecord.type := type;
              OrderRecord.quantity := quantity;
              OrderRecord.price := price;
              OrderRecord.status := status |} /\
      PyFloat.of_value (get_price order) = Ok price /\
      (order !! "price" = None ->
       price = PyFloat.FloatOf (Finite false 0 0)).
Proof.
  intros order order_id symbol side type orig_qty status quantity
         Hid Hsym Hside Hty Hq Hst Hfq Hprice.
  assert (Hp : exists price,
             PyFloat.of_value (get_price order) = Ok price /\
             (order !! "price" = None ->
              price = PyFloat.FloatOf (Finite false 0 0))).
  { unfold get_price. destruct (order !! "price") as [p |] eqn:E.
    - destruct (Hprice p eq_refl) as [x Hx]. exists x.
      split; [exact Hx | discriminate].
    - eexists. split; reflexivity. }
  destruct Hp as (price & Hp & Hzero). exists price.
  split; [| split; assumption].
  unfold _format_order_response, getitem.
  rewrite Hid, Hsym, Hside, Hty, Hq, Hst. cbn [bind]. rewrite Hfq. cbn [bind].
  rewrite Hp. reflexivity.
Qed.

(** The hypotheses of C5 hold of the order the specification's stub
    echoes, which has no price field. *)
Lemma format_order_response_echoed :
  exists price,
    _format_order_response echoed_order
    = Ok {| OrderRecord.order_id := VInt 5;
            OrderRecord.symbol := VStr "BTCUSDT";
            OrderRecord.side := VStr "BUY";
            OrderRecord.type := VStr "MARKET";
            OrderRecord.quantity := PyFloat.FloatOf (Finite false 10 (-3));
            OrderRecord.price := price;
            OrderRecord.status := VStr "NEW" |} /\
    PyFloat.of_value (get_price echoed_order) = Ok price /\
    (echoed_order !! "price" = None ->
     price = PyFloat.FloatOf (Finite false 0 0)).
Proof.
  apply format_order_response_total with (orig_qty := VStr "0.010").
  - reflexivity.
  - reflexivity.
  - reflexivity.
  - reflexivity.
  - reflexivity.
  - reflexivity.
  - vm_compute. reflexivity.
  - intros p H. vm_compute in H. discriminate H.
Defined.

(** ** The rules cache *)

(** C6, as amended.  A cached symbol is answered from the cache, the state
    left as it was, so without a request.  When a lookup succeeds, the same
    lookup made next returns the same rules and sends nothing, and the first
    one sent at most one request. *)
Theorem rules_cache_idempotent :
  forall (client : Client) (symbol : string) (self : BasicBot),
    (forall info,
        _symbol_info_cache self !! upper symbol = Some info ->
        get_symbol_info client symbol self = (Ok info, self)) /\
    (forall info self1,
        get_symbol_info client symbol self = (Ok info, self1) ->
        get_symbol_info client symbol self1 = (Ok info, self1) /\
        (length (requests self1) <= length (requests self) + 1)%nat).
Proof.
  intros client symbol self. split.
  - intros info H. apply get_symbol_info_hit, H.
  - intros info self1 H.
    destruct (get_symbol_info_ok _ _ _ _ _ H) as [Hc Hs].
    split; [apply get_symbol_info_hit, Hc |].
    destruct Hs as [-> | [_ ->]]; cbn; [lia |].
    rewrite length_app. cbn. lia.
Qed.

(** C6 at work: BTCUSDT looked up twice on a new bot costs one request. *)
Lemma rules_cache_idempotent_witness :
  get_symbol_info btc_exchange "BTCUSDT"
    (snd (get_symbol_info btc_exchange "BTCUSDT" new_bot))
  = (Ok btc_rules, snd (get_symbol_info btc_exchange "BTCUSDT" new_bot)) /\
  (length (requests (snd (get_symbol_info btc_exchange "BTCUSDT" new_bot)))
   <= length (requests new_bot) + 1)%nat.
Proof.
  apply (proj2 (rules_cache_idempotent btc_exchange "BTCUSDT" new_bot)).
  vm_compute. reflexivity.
Defined.

(** C6 as stated fails for a symbol the exchange does not list: nothing is
    cached for it, and two consecutive lookups send two requests. *)
Lemma unknown_symbol_fetched_twice :
  fst (get_symbol_info empty_exchange "FOO" new_bot)
  = Raise (SymbolNotFound "FOO") /\
  requests
    (snd (get_symbol_info empty_exchange "FOO"
            (snd (get_symbol_info empty_exchange "FOO" new_bot))))
  = [Call_futures_exchange_info; Call_futures_exchange_info].
Proof. split; vm_compute; reflexivity. Qed.




(** C10, as amended.  A lookup behaves as the lookup of the upper-case
    symbol does: same outcome, same state left.  When a lookup succeeds,
    the rules are in the cache under the upper-case symbol, and a lookup
    of the same symbol in any other case returns them and sends nothing. *)
Theorem get_symbol_info_any_case :
  forall (client : Client) (symbol : string) (self : BasicBot),
    get_symbol_info client symbol self
    = get_symbol_info client (upper symbol) self /\
    (forall symbol' info self1,
        upper symbol' = upper symbol ->
        get_symbol_info client symbol self = (Ok info, self1) ->
        _symbol_info_cache self1 !! upper symbol = Some info /\
        get_symbol_info client symbol' self1 = (Ok info, self1)).
Proof.
  intros client symbol self. split.
  - apply get_symbol_info_upper.
  - intros symbol' info self1 Hu H.
    destruct (get_symbol_info_ok _ _ _ _ _ H) as [Hc _].
    split; [exact Hc |]. apply get_symbol_info_hit. rewrite Hu. exact Hc.
Qed.

(** C10 at work: "btcusdt" then "BtcUsdt" on a new bot. *)
Lemma get_symbol_info_any_case_witness :
  _symbol_info_cache (snd (get_symbol_info btc_exchange "btcusdt" new_bot))
    !! upper "btcusdt" = Some btc_rules /\
  get_symbol_info btc_exchange "BtcUsdt"
    (snd (get_symbol_info btc_exchange "btcusdt" new_bot))
  = (Ok btc_rules, snd (get_symbol_info btc_exchange "btcusdt" new_bot)).
Proof.
  apply (proj2 (get_symbol_info_any_case btc_exchange "btcusdt" new_bot)).
  - vm_compute. reflexivity.
  - vm_compute. reflexivity.
Defined.

(** C10 as stated fails for a symbol the exchange does not list: the
    lookups of "foo" and of "FOO" share no cache entry, and each sends a
    request. *)
Lemma unknown_symbol_fetched_per_casing :
  _symbol_info_cache (snd (get_symbol_info empty_exchange "foo" new_bot))
    !! "FOO"%string = None /\
  requests
    (snd (get_symbol_info empty_exchange "FOO"
            (snd (get_symbol_info empty_exchange "foo" new_bot))))
  = [Call_futures_exchange_info; Call_futures_exchange_info].
Proof. split; vm_compute; reflexivity. Qed.

(** ** The balance *)

(** C8, as amended.  On a snapshot whose balances and totals [float]
    accepts, [get_account_balance] sends one request and returns the three
    totals converted to floats, with the asset entries whose wallet balance
    is above zero, in the order of the snapshot. *)
Theorem get_account_balance_positive :
  forall (client : Client) (self : BasicBot) (account : Account)
         (tm ab pnl : PyFloat.t),
    futures_account client (requests self) = Ok account ->
    Forall (fun b => exists x, wallet_balance b = Ok x) (assets account) ->
    PyFloat.of_value (totalMarginBalance account) = Ok tm ->
    PyFloat.of_value (availableBalance account) = Ok ab ->
    PyFloat.of_value (totalUnrealizedProfit account) = Ok pnl ->
    get_account_balance client self
    = (Ok {| Balance.total_margin_balance := tm;
             Balance.available_balance := ab;
             Balance.total_unrealized_pnl := pnl;
             Balance.balances := List.filter wallet_positive (assets account) |},
       sent Call_futures_account self).
Proof.
  intros client self account tm ab pnl Hr Hw Htm Hab Hpnl.
  unfold get_account_balance.
  rewrite Hr. cbn [bind]. rewrite (positive_balances_filter _ Hw). cbn [bind].
  rewrite Htm, Hab, Hpnl. reflexivity.
Qed.

(** The hypotheses of C8 hold of the example snapshot, which holds one
    asset above zero, one below and one at zero. *)
Lemma get_account_balance_positive_witness :
  get_account_balance btc_exchange new_bot
  = (Ok {| Balance.total_margin_balance :=
             PyFloat.FloatOf (Finite false 9850000000 (-8));
           Balance.available_balance :=
             PyFloat.FloatOf (Finite false 9850000000 (-8));
           Balance.total_unrealized_pnl :=
             PyFloat.FloatOf (Finite false 0 (-8));
           Balance.balances :=
             List.filter wallet_positive
               [ <["asset" := VStr "USDT"]>
                   (<["walletBalance" := VStr "-1.50000000"]> ∅);
                 <["asset" := VStr "BNB"]>
                   (<["walletBalance" := VStr "0.25000000"]> ∅);
                 <["asset" := VStr "BTC"]>
                   (<["walletBalance" := VStr "0.00000000"]> ∅) ] |},
     sent Call_futures_account new_bot).
Proof.
  apply (get_account_balance_positive btc_exchange new_bot
           {| assets :=
                [ <["asset" := VStr "USDT"]>
                    (<["walletBalance" := VStr "-1.50000000"]> ∅);
                  <["asset" := VStr "BNB"]>
                    (<["walletBalance" := VStr "0.25000000"]> ∅);
                  <["asset" := VStr "BTC"]>
                    (<["walletBalance" := VStr "0.00000000"]> ∅) ];
              totalMarginBalance := VStr "98.50000000";
              availableBalance := VStr "98.50000000";
              totalUnrealizedProfit := VStr "0.00000000" |}).
  - reflexivity.
  - repeat constructor; eexists; vm_compute; reflexivity.
  - vm_compute. reflexivity.
  - vm_compute. reflexivity.
  - vm_compute. reflexivity.
Defined.

(** C8 as stated fails: the USDT entry of the example snapshot has a
    wallet balance of -1.5, which is not zero, and is not among the
    balances returned; the only one returned is the BNB entry. *)
Lemma negative_balance_left_out :
  wallet_nonzero
    (<["asset" := VStr "USDT"]> (<["walletBalance" := VStr "-1.50000000"]> ∅))
  = true /\
  match fst (get_account_balance btc_exchange new_bot) with
  | Ok b =>
      Balance.balances b
      = [ <["asset" := VStr "BNB"]> (<["walletBalance" := VStr "0.25000000"]> ∅) ]
  | Raise _ => False
  end.
Proof. split; vm_compute; reflexivity. Qed.

(** ** The order gateway: a limit order *)

(** The arguments of the two order requests, entry by entry. *)
Lemma limit_params_other symbol side formatted_quantity price key :
  key ∉ limit_keys ->
  limit_params symbol side formatted_quantity price !! key = None.
Proof.
  unfold limit_keys, limit_params. intros H.
  rewrite !not_elem_of_cons in H.
  destruct H as (H1 & H2 & H3 & H4 & H5 & H6 & _).
  rewrite !lookup_insert_ne by congruence. apply lookup_empty.
Qed.

Lemma market_params_other symbol side formatted_quantity key :
  key ∉ market_keys ->
  market_params symbol side formatted_quantity !! key = None.
Proof.
  unfold market_keys, market_params. intros H.
  rewrite !not_elem_of_cons in H.
  destruct H as (H1 & H2 & H3 & H4 & _).
  rewrite !lookup_insert_ne by congruence. apply lookup_empty.
Qed.

(** C9.  Once the rules of the symbol are found and the quantity is read,
    [place_limit_order] hands the quantity to the normalizer.  If that
    raises, the exception is passed on and no order is sent.  Otherwise one
    order request is sent, for the symbol and the side in upper case, with
    type LIMIT, time in force GTC, the normalized quantity, the price text
    as the caller gave it, whatever the rules say about prices, and no
    other argument; the reply goes through [_format_order_response]. *)
Theorem place_limit_order_gateway :
  forall (client : Client) (symbol side quantity price : string)
         (self self1 : BasicBot) (info : SymbolInfo) (q : Decimal),
    get_symbol_info client symbol self = (Ok info, self1) ->
    of_string quantity = Some q ->
    (forall e,
        normalize info q = Raise e ->
        place_limit_order client symbol side quantity price self
        = (Raise e, self1)) /\
    (forall formatted_quantity,
        normalize info q = Ok formatted_quantity ->
        limit_params symbol side formatted_quantity price !! "type"
        = Some "LIMIT"%string /\
        limit_params symbol side formatted_quantity price !! "timeInForce"
        = Some "GTC"%string /\
        limit_params symbol side formatted_quantity price !! "quantity"
        = Some formatted_quantity /\
        limit_params symbol side formatted_quantity price !! "price"
        = Some price /\
        place_limit_order client symbol side quantity price self
        = (order <- futures_create_order client (requests self1)
                      (limit_params symbol side formatted_quantity price) ;;
           _format_order_response order,
           sent (Call_futures_create_order
                   (limit_params symbol side formatted_quantity price))
             self1) /\
        limit_params symbol side formatted_quantity price !! "symbol"
        = Some (upper symbol) /\
        limit_params symbol side formatted_quantity price !! "side"
        = Some (upper side) /\
        (forall key,
            key ∉ limit_keys ->
            limit_params symbol side formatted_quantity price !! key = None)).
Proof.
  intros client symbol side quantity price self self1 info q Hi Hq.
  pose proof (validate_and_format_quantity_found _ _ _ _ _ _ _ Hi Hq) as Hv.
  split.
  - intros e He. unfold place_limit_order. rewrite Hv, He. reflexivity.
  - intros fq Hn.
    split; [reflexivity |]. split; [reflexivity |].
    split; [reflexivity |]. split; [reflexivity |].
    split; [unfold place_limit_order; rewrite Hv, Hn; reflexivity |].
    split; [reflexivity |]. split; [reflexivity |].
    intros key. apply limit_params_other.
Qed.

(** C9 at work: a limit order to sell 0.0035 BTCUSDT at a price with more
    decimals than the price precision of the rules.  The request that
    leaves is for BTCUSDT, SELL, 0.003. *)
Lemma place_limit_order_gateway_witness :
  limit_params "btcusdt" "sell" "0.003" "50000.123456" !! "type"
  = Some "LIMIT"%string /\
  limit_params "btcusdt" "sell" "0.003" "50000.123456" !! "timeInForce"
  = Some "GTC"%string /\
  limit_params "btcusdt" "sell" "0.003" "50000.123456" !! "quantity"
  = Some "0.003"%string /\
  limit_params "btcusdt" "sell" "0.003" "50000.123456" !! "price"
  = Some "50000.123456"%string /\
  place_limit_order btc_exchange "btcusdt" "sell" "0.0035" "50000.123456" new_bot
  = (order <- futures_create_order btc_exchange
                (requests (snd (get_symbol_info btc_exchange "btcusdt" new_bot)))
                (limit_params "btcusdt" "sell" "0.003" "50000.123456") ;;
     _format_order_response order,
     sent (Call_futures_create_order
             (limit_params "btcusdt" "sell" "0.003" "50000.123456"))
       (snd (get_symbol_info btc_exchange "btcusdt" new_bot))) /\
  limit_params "btcusdt" "sell" "0.003" "50000.123456" !! "symbol"
  = Some "BTCUSDT"%string /\
  limit_params "btcusdt" "sell" "0.003" "50000.123456" !! "side"
  = Some "SELL"%string /\
  (forall key,
      key ∉ limit_keys ->
      limit_params "btcusdt" "sell" "0.003" "50000.123456" !! key = None).
Proof.
  apply (proj2 (place_limit_order_gateway btc_exchange "btcusdt" "sell" "0.0035"
                  "50000.123456" new_bot
                  (snd (get_symbol_info btc_exchange "btcusdt" new_bot))
                  btc_rules quantity_0_0035
                  ltac:(vm_compute; reflexivity) ltac:(vm_compute; reflexivity))).
  vm_compute. reflexivity.
Defined.

(** * Further properties of the code *)

(** ** The quantity normalizer *)

(** The steps of [normalize] on a finite quantity, with the bound on the
    quantity given on the aligned coefficients. *)
Lemma normalize_trace rules sq cq eq cs es m :
  step_size rules = Finite false cs es ->
  cs <> 0%N ->
  0 <= quantity_precision rules ->
  lt (Finite sq cq eq) (min_qty rules) = Ok false ->
  (inject_Z (Z.of_N cs) * 10 ^ es
   == inject_Z m * 10 ^ (- quantity_precision rules))%Q ->
  Z.of_N cq * 10 ^ (eq - Z.min eq es) < 10 ^ prec * 10 ^ (es - Z.min eq es) ->
  Etiny <= es <= Etop ->
  exists text c',
    normalize rules (Finite sq cq eq) = Ok text /\
    of_string text = Some (Finite sq c' (- quantity_precision rules)) /\
    Z.of_N c'
    = Z.of_N cq * 10 ^ (eq - Z.min eq es)
      / (Z.of_N cs * 10 ^ (es - Z.min eq es)) * m /\
    format_f
      (Finite sq
         (Z.to_N (Z.of_N cq * 10 ^ (eq - Z.min eq es)
                  / (Z.of_N cs * 10 ^ (es - Z.min eq es))) * cs) es)
      (quantity_precision rules) = Ok text /\
    Z.of_N cq * 10 ^ (eq - Z.min eq es)
    / (Z.of_N cs * 10 ^ (es - Z.min eq es)) * Z.of_N cs < 10 ^ prec.
Proof.
  intros Hstep Hcs Hp Hlt Hm HAD Hrange.
  set (p := quantity_precision rules) in *.
  set (e0 := Z.min eq es) in *.
  set (A := Z.of_N cq * 10 ^ (eq - e0)) in *.
  set (D := 10 ^ (es - e0)) in *.
  set (B := Z.of_N cs * D).
  assert (HD : 0 < D) by (apply Z.pow_pos_nonneg; lia).
  assert (HB : 0 < B) by nia.
  assert (HA : 0 <= A) by (subst A; pose proof (Z.pow_nonneg 10 (eq - e0)); nia).
  set (k := A / B).
  assert (Hk0 : 0 <= k) by (apply Z.div_pos; lia).
  assert (HkB : k * B <= A) by (rewrite Z.mul_comm; apply Z.mul_div_le; lia).
  assert (Hkcs : k * Z.of_N cs < 10 ^ prec) by (subst B; nia).
  assert (Hk : k < 10 ^ prec) by nia.
  unfold normalize. rewrite Hlt. cbn [bind]. rewrite Hstep.
  rewrite floordiv_finite
    by (fold e0; fold A; fold D; fold B; fold k; assumption).
  fold e0. fold A. fold D. fold B. fold k. cbn [bind].
  unfold mul. rewrite xorb_false_r, Z.add_0_l.
  rewrite fix_exact by (try rewrite N2Z.inj_mul, Z2N.id; assumption).
  cbn [bind]. fold p.
  destruct (format_f_shape sq (Z.to_N k * cs) es p Hp)
    as (ip & fp & Hfmt & Hne & Hsmall & Hlen & Hval).
  exists (fixed_text sq ip fp), (digits_value (ip ++ fp) 0).
  split; [exact Hfmt |].
  split.
  { rewrite of_string_fixed_text by assumption.
    rewrite Hlen, Z2Nat.id by assumption. reflexivity. }
  split.
  { rewrite Hval. apply rescale_multiple.
    rewrite N2Z.inj_mul, Z2N.id, !inject_Z_mult by assumption.
    rewrite <- !Qmult_assoc. apply Qmult_comp; [reflexivity | exact Hm]. }
  split; [exact Hfmt | exact Hkcs].
Qed.

(** The bound of the properties, on the aligned coefficients. *)
Lemma bound_aligned cq eq es :
  (inject_Z (Z.of_N cq) * 10 ^ eq < 10 ^ (prec + es))%Q ->
  Z.of_N cq * 10 ^ (eq - Z.min eq es) < 10 ^ prec * 10 ^ (es - Z.min eq es).
Proof.
  intros H. set (e0 := Z.min eq es).
  assert (H1 : Z.of_N cq * 10 ^ (eq - e0) < 1 * 10 ^ (prec + es - e0)).
  { apply (scale_lt _ _ e0).
    rewrite !scaled_back by (unfold prec; lia).
    rewrite Qmult_1_l. exact H. }
  rewrite <- Z.pow_add_r by (unfold prec; lia).
  replace (prec + (es - e0)) with (prec + es - e0) by lia. lia.
Qed.


Lemma lt_true_below a b : lt a b = Ok true -> below a b.
Proof.
  destruct a as [sa ca ea | [|] | ?], b as [sb cb eb | [|] | ?];
    try discriminate; try (intros _; exact I).
  rewrite lt_finite. destruct (Qlt_le_dec _ _) as [H | _]; [| discriminate].
  intros _. exact H.
Qed.

Lemma format_f_not_below d p : format_f d p <> Raise BelowMinimum.
Proof.
  unfold format_f. destruct (p <? 0); [discriminate |].
  destruct d as [s c e | s | s]; discriminate.
Qed.

Lemma fix_not_below s c e : fix_ s c e <> Raise BelowMinimum.
Proof.
  unfold fix_.
  repeat match goal with
         | |- (if ?b then _ else _) <> _ => destruct b
         end; discriminate.
Qed.

Lemma mul_not_below a b : mul a b <> Raise BelowMinimum.
Proof.
  destruct a as [sa ca ea | sa | [|]], b as [sb cb eb | sb | [|]]; simpl;
    try discriminate; try apply fix_not_below;
    match goal with |- (if ?c then _ else _) <> _ => destruct c end;
    discriminate.
Qed.

Lemma floordiv_not_below a b : floordiv a b <> Raise BelowMinimum.
Proof.
  destruct a as [sa ca ea | sa | [|]], b as [sb cb eb | sb | [|]]; simpl;
    try discriminate.
  destruct (cb =? 0)%N; [destruct (ca =? 0)%N; discriminate |].
  destruct (_ <? _); discriminate.
Qed.

(** X1.  [normalize] raises [BelowMinimum] for no other reason than a
    quantity below the minimum: the exceptions of the arithmetic and of the
    formatting are others. *)
Theorem below_minimum_only_below :
  forall (rules : SymbolInfo) (q : Decimal),
    normalize rules q = Raise BelowMinimum -> below q (min_qty rules).
Proof.
  intros rules q H. unfold normalize in H.
  destruct (lt q (min_qty rules)) as [[|] | e] eqn:Hlt.
  - apply lt_true_below, Hlt.
  - cbn [bind] in H.
    destruct (floordiv q (step_size rules)) as [quo | e] eqn:Hd; cbn [bind] in H.
    + destruct (mul quo (step_size rules)) as [adj | e] eqn:Hm; cbn [bind] in H.
      * exfalso. exact (format_f_not_below _ _ H).
      * exfalso. apply (mul_not_below quo (step_size rules)). congruence.
    + exfalso. apply (floordiv_not_below q (step_size rules)). congruence.
  - cbn [bind] in H. exfalso.
    destruct q as [? ? ? | ? | ?], (min_qty rules) as [? ? ? | ? | ?];
      simpl in Hlt; congruence.
Qed.

(** X1 at work on the scenario's rules and 0.0005. *)
Lemma below_minimum_only_below_witness :
  below quantity_0_0005 (min_qty btc_rules).
Proof.
  apply below_minimum_only_below. vm_compute. reflexivity.
Defined.

Lemma Qabs_signed s c e c2 e2 :
  (0 <= value (Finite s c e) * value (Finite s c2 e2))%Q.
Proof.
  unfold value.
  assert (E : (inject_Z (signed s c) * 10 ^ e * (inject_Z (signed s c2) * 10 ^ e2)
               == inject_Z (signed s c * signed s c2) * (10 ^ e * 10 ^ e2))%Q)
    by (rewrite inject_Z_mult; ring).
  rewrite E.
  apply Qmult_le_0_compat.
  - rewrite <- (Zle_Qle 0). unfold signed. destruct s; nia.
  - apply Qlt_le_weak. apply Qmult_lt_0_compat; apply pow10_pos.
Qed.

(** X2.  Under the hypotheses of C2 on the rules, a finite quantity at
    least the minimum, of either sign, is cut towards zero: the text
    returned reads as a decimal of the same sign, no larger in magnitude,
    and less than one step away. *)
Theorem normalize_truncates :
  forall (rules : SymbolInfo) (q : Decimal),
    is_finite (step_size rules) = true ->
    (0 < value (step_size rules))%Q ->
    is_finite (min_qty rules) = true ->
    is_finite q = true ->
    (value (min_qty rules) <= value q)%Q ->
    0 <= quantity_precision rules ->
    (exists m : Z,
        value (step_size rules)
        == inject_Z m * 10 ^ (- quantity_precision rules))%Q ->
    (Qabs (value q) < 10 ^ (prec + exponent (step_size rules)))%Q ->
    Etiny <= exponent (step_size rules) <= Etop ->
    exists text r,
      normalize rules q = Ok text /\
      of_string text = Some r /\
      (Qabs (value r) <= Qabs (value q))%Q /\
      (Qabs (value q) < Qabs (value r) + value (step_size rules))%Q /\
      (0 <= value q * value r)%Q.
Proof.
  intros rules q Hsf Hspos Hmf Hqf Hge Hp [m Hm] Hbound Hrange.
  destruct q as [sq cq eq | |]; try discriminate.
  destruct (step_size rules) as [ss cs es | |] eqn:Hstep; try discriminate.
  apply value_pos_inv in Hspos as Hs. destruct Hs as [-> Hcs].
  cbn [exponent] in *. rewrite Qabs_value in Hbound.
  pose proof (bound_aligned _ _ _ Hbound) as HAD.
  assert (Hlt : lt (Finite sq cq eq) (min_qty rules) = Ok false)
    by (apply lt_not_below_finite; [reflexivity | assumption | assumption]).
  assert (Hm' : (inject_Z (Z.of_N cs) * 10 ^ es
                 == inject_Z m * 10 ^ (- quantity_precision rules))%Q)
    by exact Hm.
  destruct (normalize_trace rules sq cq eq cs es m Hstep Hcs Hp Hlt Hm' HAD Hrange)
    as (text & c' & Hn & Hparse & Hc' & _ & _).
  set (e0 := Z.min eq es) in *.
  set (A := Z.of_N cq * 10 ^ (eq - e0)) in *.
  set (B := Z.of_N cs * 10 ^ (es - e0)) in *.
  assert (HB : 0 < B).
  { subst B. pose proof (Z.pow_pos_nonneg 10 (es - e0)). nia. }
  assert (HA : 0 <= A).
  { subst A. pose proof (Z.pow_nonneg 10 (eq - e0)). nia. }
  assert (Hq : (Qabs (value (Finite sq cq eq)) == inject_Z A * 10 ^ e0)%Q).
  { rewrite Qabs_value. subst A. rewrite scaled_back by lia. reflexivity. }
  assert (Hs : (value (Finite false cs es) == inject_Z B * 10 ^ e0)%Q).
  { unfold value, signed. subst B. rewrite scaled_back by lia. reflexivity. }
  assert (Hr : (Qabs (value (Finite sq c' (- quantity_precision rules)))
                == inject_Z (A / B * B) * 10 ^ e0)%Q).
  { rewrite Qabs_value, Hc', inject_Z_mult, <- Qmult_assoc, <- Hm'.
    rewrite (inject_Z_mult (A / B) B), <- Qmult_assoc.
    apply Qmult_comp; [reflexivity |].
    subst B. rewrite scaled_back by lia. reflexivity. }
  exists text, (Finite sq c' (- quantity_precision rules)).
  split; [exact Hn |]. split; [exact Hparse |].
  split; [| split].
  - rewrite Hr, Hq. apply scale_le.
    rewrite Z.mul_comm. apply Z.mul_div_le. lia.
  - rewrite Hr, Hq, Hs.
    rewrite <- Qmult_plus_distr_l, <- inject_Z_plus. apply scale_lt.
    pose proof (Z.mod_pos_bound A B HB). pose proof (Z.div_mod A B). lia.
  - apply Qabs_signed.
Qed.

(** X2 at work on -0.0035, with a minimum of -1. *)
Lemma normalize_truncates_witness :
  exists text r,
    normalize signed_rules quantity_minus_0_0035 = Ok text /\
    of_string text = Some r /\
    (Qabs (value r) <= Qabs (value quantity_minus_0_0035))%Q /\
    (Qabs (value quantity_minus_0_0035)
     < Qabs (value r) + value (step_size signed_rules))%Q /\
    (0 <= value quantity_minus_0_0035 * value r)%Q.
Proof.
  apply normalize_truncates.
  - reflexivity.
  - vm_compute. reflexivity.
  - reflexivity.
  - reflexivity.
  - apply Qle_bool_iff. vm_compute. reflexivity.
  - cbn. lia.
  - exists 1. vm_compute. reflexivity.
  - vm_compute. reflexivity.
  - vm_compute. split; discriminate.
Defined.

(** The value of the text [normalize] returns. *)
Lemma value_of_result sq c' p k m cs es :
  Z.of_N c' = k * m ->
  (inject_Z (Z.of_N cs) * 10 ^ es == inject_Z m * 10 ^ (- p))%Q ->
  (value (Finite sq c' (- p))
   == inject_Z ((if sq then -1 else 1) * k) * value (Finite false cs es))%Q.
Proof.
  intros Hc Hm. unfold value. unfold signed at 2. rewrite Hm.
  rewrite Qmult_assoc. apply Qmult_comp; [| reflexivity].
  rewrite <- inject_Z_mult. apply inject_Z_injective.
  unfold signed. rewrite Hc. destruct sq; lia.
Qed.

(** X3.  A quantity that is already a whole multiple of the step comes
    back with its value unchanged. *)
Theorem normalize_keeps_multiples :
  forall (rules : SymbolInfo) (q : Decimal),
    is_finite (step_size rules) = true ->
    (0 < value (step_size rules))%Q ->
    is_finite (min_qty rules) = true ->
    is_finite q = true ->
    (value (min_qty rules) <= value q)%Q ->
    0 <= quantity_precision rules ->
    (exists m : Z,
        value (step_size rules)
        == inject_Z m * 10 ^ (- quantity_precision rules))%Q ->
    (Qabs (value q) < 10 ^ (prec + exponent (step_size rules)))%Q ->
    Etiny <= exponent (step_size rules) <= Etop ->
    (exists n : Z, value q == inject_Z n * value (step_size rules))%Q ->
    exists text r,
      normalize rules q = Ok text /\
      of_string text = Some r /\
      (value r == value q)%Q.
Proof.
  intros rules q Hsf Hspos Hmf Hqf Hge Hp [m Hm] Hbound Hrange [n Hn].
  destruct q as [sq cq eq | |]; try discriminate.
  destruct (step_size rules) as [ss cs es | |] eqn:Hstep; try discriminate.
  apply value_pos_inv in Hspos as Hs. destruct Hs as [-> Hcs].
  cbn [exponent] in *. rewrite Qabs_value in Hbound.
  pose proof (bound_aligned _ _ _ Hbound) as HAD.
  assert (Hlt : lt (Finite sq cq eq) (min_qty rules) = Ok false)
    by (apply lt_not_below_finite; [reflexivity | assumption | assumption]).
  assert (Hm' : (inject_Z (Z.of_N cs) * 10 ^ es
                 == inject_Z m * 10 ^ (- quantity_precision rules))%Q)
    by exact Hm.
  destruct (normalize_trace rules sq cq eq cs es m Hstep Hcs Hp Hlt Hm' HAD Hrange)
    as (text & c' & Hnorm & Hparse & Hc' & _ & _).
  exists text, (Finite sq c' (- quantity_precision rules)).
  split; [exact Hnorm |]. split; [exact Hparse |].
  rewrite (value_of_result _ _ _ _ _ _ _ Hc' Hm'), Hn.
  apply Qmult_comp; [| reflexivity].
  apply inject_Z_injective.
  set (e0 := Z.min eq es) in *.
  set (B := Z.of_N cs * 10 ^ (es - e0)) in *.
  assert (HB : 0 < B).
  { subst B. pose proof (Z.pow_pos_nonneg 10 (es - e0)). nia. }
  assert (E : scaled sq cq eq e0 = n * B).
  { apply (scale_eq _ _ e0).
    rewrite <- value_scaled by lia. rewrite Hn.
    rewrite inject_Z_mult, <- Qmult_assoc. apply Qmult_comp; [reflexivity |].
    unfold value, signed. subst B. rewrite scaled_back by lia. reflexivity. }
  unfold scaled, signed in E.
  destruct sq.
  - assert (EA : Z.of_N cq * 10 ^ (eq - e0) = (- n) * B) by lia.
    rewrite EA, Z.div_mul by lia. lia.
  - rewrite E, Z.div_mul by lia. lia.
Qed.

(** X3 at work on 0.003 in steps of 0.001. *)
Lemma normalize_keeps_multiples_witness :
  exists text r,
    normalize btc_rules (Finite false 3 (-3)) = Ok text /\
    of_string text = Some r /\
    (value r == value (Finite false 3 (-3)))%Q.
Proof.
  apply normalize_keeps_multiples.
  - reflexivity.
  - vm_compute. reflexivity.
  - reflexivity.
  - reflexivity.
  - apply Qle_bool_iff. vm_compute. reflexivity.
  - cbn. lia.
  - exists 1. vm_compute. reflexivity.
  - vm_compute. reflexivity.
  - vm_compute. split; discriminate.
  - exists 3. vm_compute. reflexivity.
Defined.



(** A quantity that is not negative lies between the returned multiple of
    the step and the next one. *)
Lemma normalize_bracket rules q :
  is_finite (step_size rules) = true ->
  (0 < value (step_size rules))%Q ->
  is_finite (min_qty rules) = true ->
  is_finite q = true ->
  (value (min_qty rules) <= value q)%Q ->
  (0 <= value q)%Q ->
  0 <= quantity_precision rules ->
  (exists m : Z,
      value (step_size rules)
      == inject_Z m * 10 ^ (- quantity_precision rules))%Q ->
  (value q < 10 ^ (prec + exponent (step_size rules)))%Q ->
  Etiny <= exponent (step_size rules) <= Etop ->
  exists text r k,
    normalize rules q = Ok text /\
    of_string text = Some r /\
    (value r == inject_Z k * value (step_size rules))%Q /\
    (inject_Z k * value (step_size rules) <= value q)%Q /\
    (value q < inject_Z (k + 1) * value (step_size rules))%Q.
Proof.
  intros Hsf Hspos Hmf Hqf Hge Hq0 Hp [m Hm] Hbound Hrange.
  destruct q as [sq cq eq | |]; try discriminate.
  destruct (step_size rules) as [ss cs es | |] eqn:Hstep; try discriminate.
  apply value_pos_inv in Hspos as Hs. destruct Hs as [-> Hcs].
  cbn [exponent] in *.
  assert (Hbound' : (inject_Z (Z.of_N cq) * 10 ^ eq < 10 ^ (prec + es))%Q).
  { rewrite <- (Qabs_value sq cq eq).
    rewrite (Qabs_pos (value (Finite sq cq eq)) Hq0). exact Hbound. }
  pose proof (bound_aligned _ _ _ Hbound') as HAD.
  assert (Hlt : lt (Finite sq cq eq) (min_qty rules) = Ok false)
    by (apply lt_not_below_finite; [reflexivity | assumption | assumption]).
  assert (Hm' : (inject_Z (Z.of_N cs) * 10 ^ es
                 == inject_Z m * 10 ^ (- quantity_precision rules))%Q)
    by exact Hm.
  destruct (normalize_trace rules sq cq eq cs es m Hstep Hcs Hp Hlt Hm' HAD Hrange)
    as (text & c' & Hnorm & Hparse & Hc' & _ & _).
  set (e0 := Z.min eq es) in *.
  set (A := Z.of_N cq * 10 ^ (eq - e0)) in *.
  set (B := Z.of_N cs * 10 ^ (es - e0)) in *.
  assert (HB : 0 < B).
  { subst B. pose proof (Z.pow_pos_nonneg 10 (es - e0)). nia. }
  assert (HA : 0 <= A).
  { subst A. pose proof (Z.pow_nonneg 10 (eq - e0)). nia. }
  assert (Hq : (value (Finite sq cq eq) == inject_Z A * 10 ^ e0)%Q).
  { rewrite <- (Qabs_pos (value (Finite sq cq eq)) Hq0).
    rewrite Qabs_value. subst A. rewrite scaled_back by lia. reflexivity. }
  assert (Hs : (value (Finite false cs es) == inject_Z B * 10 ^ e0)%Q).
  { unfold value, signed. subst B. rewrite scaled_back by lia. reflexivity. }
  assert (Hr : (value (Finite sq c' (- quantity_precision rules))
                == inject_Z (A / B) * value (Finite false cs es))%Q).
  { rewrite (value_of_result _ _ _ _ _ _ _ Hc' Hm').
    apply Qmult_comp; [| reflexivity]. apply inject_Z_injective.
    destruct sq; [| lia].
    (* a negative zero *)
    assert (H : A = 0).
    { assert (H1 : (inject_Z 0 * 10 ^ eq <= inject_Z (- Z.of_N cq) * 10 ^ eq)%Q)
        by (rewrite Qmult_0_l; exact Hq0).
      apply scale_le in H1. subst A. nia. }
    rewrite H. rewrite Z.div_0_l by lia. reflexivity. }
  exists text, (Finite sq c' (- quantity_precision rules)), (A / B).
  split; [exact Hnorm |]. split; [exact Hparse |]. split; [exact Hr |].
  split.
  - rewrite Hq, Hs, Qmult_assoc, <- inject_Z_mult. apply scale_le.
    rewrite Z.mul_comm. apply Z.mul_div_le. lia.
  - rewrite Hq, Hs, Qmult_assoc, <- inject_Z_mult. apply scale_lt.
    pose proof (Z.mod_pos_bound A B HB). pose proof (Z.div_mod A B). lia.
Qed.

(** X5.  Of two quantities that are not negative, the larger is never
    given the smaller result. *)
Theorem normalize_monotone :
  forall (rules : SymbolInfo) (q1 q2 : Decimal),
    is_finite (step_size rules) = true ->
    (0 < value (step_size rules))%Q ->
    is_finite (min_qty rules) = true ->
    0 <= quantity_precision rules ->
    (exists m : Z,
        value (step_size rules)
        == inject_Z m * 10 ^ (- quantity_precision rules))%Q ->
    Etiny <= exponent (step_size rules) <= Etop ->
    is_finite q1 = true ->
    is_finite q2 = true ->
    (value (min_qty rules) <= value q1)%Q ->
    (0 <= value q1)%Q ->
    (value q1 <= value q2)%Q ->
    (value q2 < 10 ^ (prec + exponent (step_size rules)))%Q ->
    exists text1 r1 text2 r2,
      normalize rules q1 = Ok text1 /\ of_string text1 = Some r1 /\
      normalize rules q2 = Ok text2 /\ of_string text2 = Some r2 /\
      (value r1 <= value r2)%Q.
Proof.
  intros rules q1 q2 Hsf Hspos Hmf Hp Halign Hrange Hf1 Hf2 Hge1 Hq1 Hle Hb2.
  assert (Hb1 : (value q1 < 10 ^ (prec + exponent (step_size rules)))%Q)
    by (eapply Qle_lt_trans; eassumption).
  assert (Hge2 : (value (min_qty rules) <= value q2)%Q)
    by (eapply Qle_trans; eassumption).
  assert (Hq2 : (0 <= value q2)%Q) by (eapply Qle_trans; eassumption).
  destruct (normalize_bracket rules q1 Hsf Hspos Hmf Hf1 Hge1 Hq1 Hp Halign Hb1 Hrange)
    as (t1 & r1 & k1 & Hn1 & Hp1 & Hv1 & Hlo1 & _).
  destruct (normalize_bracket rules q2 Hsf Hspos Hmf Hf2 Hge2 Hq2 Hp Halign Hb2 Hrange)
    as (t2 & r2 & k2 & Hn2 & Hp2 & Hv2 & _ & Hhi2).
  exists t1, r1, t2, r2. repeat split; try assumption.
  rewrite Hv1, Hv2.
  apply Qmult_le_compat_r; [| apply Qlt_le_weak, Hspos].
  rewrite <- Zle_Qle.
  assert (H : (inject_Z k1 * value (step_size rules)
               < inject_Z (k2 + 1) * value (step_size rules))%Q).
  { eapply Qle_lt_trans; [exact Hlo1 |].
    eapply Qle_lt_trans; [exact Hle | exact Hhi2]. }
  apply Qmult_lt_r in H; [| exact Hspos].
  rewrite <- Zlt_Qlt in H. lia.
Qed.

(** X5 at work on 0.0018 and 0.0035. *)
Lemma normalize_monotone_witness :
  exists text1 r1 text2 r2,
    normalize btc_rules quantity_0_0018 = Ok text1 /\
    of_string text1 = Some r1 /\
    normalize btc_rules quantity_0_0035 = Ok text2 /\
    of_string text2 = Some r2 /\
    (value r1 <= value r2)%Q.
Proof.
  apply normalize_monotone.
  - reflexivity.
  - vm_compute. reflexivity.
  - reflexivity.
  - cbn. lia.
  - exists 1. vm_compute. reflexivity.
  - vm_compute. split; discriminate.
  - reflexivity.
  - reflexivity.
  - apply Qle_bool_iff. vm_compute. reflexivity.
  - apply Qle_bool_iff. vm_compute. reflexivity.
  - apply Qle_bool_iff. vm_compute. reflexivity.
  - vm_compute. reflexivity.
Defined.

(** ** The rules cache *)

(** What a lookup does, case by case. *)
Lemma get_symbol_info_cases client symbol self :
  (exists info,
      _symbol_info_cache self !! upper symbol = Some info /\
      get_symbol_info client symbol self = (Ok info, self)) \/
  (_symbol_info_cache self !! upper symbol = None /\
   ((exists exchange_info s info,
        futures_exchange_info client (requests self) = Ok exchange_info /\
        find_symbol exchange_info (upper symbol) = Some s /\
        extract_info s = Ok info /\
        get_symbol_info client symbol self
        = (Ok info,
           cached (upper symbol) info (sent Call_futures_exchange_info self))) \/
    (exists e,
        get_symbol_info client symbol self
        = (Raise e,
           logged (SymbolInfoFailed (upper symbol) e)
             (sent Call_futures_exchange_info self))))).
Proof.
  unfold get_symbol_info.
  destruct (_symbol_info_cache self !! upper symbol) as [i |] eqn:Hc.
  - left. eauto.
  - right. split; [reflexivity |].
    destruct (futures_exchange_info client (requests self)) as [ei | e] eqn:Hr;
      cbn [bind]; [| right; eauto].
    destruct (find_symbol ei (upper symbol)) as [s |] eqn:Hf; [| right; eauto].
    destruct (extract_info s) as [i | e] eqn:He; [| right; eauto].
    left. exists ei, s, i. auto.
Qed.

(** X6.  A lookup that raises has sent one request, has logged one error
    line, with the upper-case symbol and the exception it raises, and has
    left the cache as it was (lines 85-87). *)
Theorem get_symbol_info_failure :
  forall (client : Client) (symbol : string) (self self' : BasicBot)
         (e : Exception),
    get_symbol_info client symbol self = (Raise e, self') ->
    _symbol_info_cache self' = _symbol_info_cache self /\
    requests self' = requests self ++ [Call_futures_exchange_info] /\
    error_log self' = error_log self ++ [SymbolInfoFailed (upper symbol) e].
Proof.
  intros client symbol self self' e H.
  destruct (get_symbol_info_cases client symbol self)
    as [(i & _ & H') | (_ & [(ei & s & i & _ & _ & _ & H') | (e' & H')])];
    rewrite H' in H; try discriminate.
  injection H as <- <-. repeat split.
Qed.

(** X6 at work: ETHUSDT asked of an exchange out of reach. *)
Lemma get_symbol_info_failure_witness :
  _symbol_info_cache (snd (get_symbol_info down_exchange "ethusdt" btc_bot))
  = _symbol_info_cache btc_bot /\
  requests (snd (get_symbol_info down_exchange "ethusdt" btc_bot))
  = requests btc_bot ++ [Call_futures_exchange_info] /\
  error_log (snd (get_symbol_info down_exchange "ethusdt" btc_bot))
  = error_log btc_bot
    ++ [SymbolInfoFailed (upper "ethusdt") (ClientError "unreachable")].
Proof.
  destruct (get_symbol_info_failure down_exchange "ethusdt" btc_bot
              (snd (get_symbol_info down_exchange "ethusdt" btc_bot))
              (ClientError "unreachable"))
    as (H1 & H2 & H3).
  - vm_compute. reflexivity.
  - split; [exact H1 |]. split; assumption.
Defined.

(** X7.  A lookup sends no request when the upper-case symbol is cached
    and exactly one, for the instrument list, when it is not, whatever its
    outcome. *)
Theorem get_symbol_info_requests :
  forall (client : Client) (symbol : string) (self : BasicBot),
    requests (snd (get_symbol_info client symbol self))
    = requests self
      ++ match _symbol_info_cache self !! upper symbol with
         | Some _ => []
         | None => [Call_futures_exchange_info]
         end.
Proof.
  intros client symbol self.
  destruct (get_symbol_info_cases client symbol self)
    as [(i & Hc & H') | (Hc & [(ei & s & i & _ & _ & _ & H') | (e' & H')])];
    rewrite H', Hc; cbn; [rewrite app_nil_r |..]; reflexivity.
Qed.

(** ** Reading the rules of an instrument *)

Lemma lot_size_field_first before f after key v :
  Forall other_filter before ->
  f !! "filterType" = Some (VStr "LOT_SIZE") ->
  f !! key = Some v ->
  lot_size_field (before ++ f :: after) key = Ok v.
Proof.
  intros Hb Ht Hk. induction Hb as [|g r (ty & Hg & Hty) _ IH]; simpl.
  - unfold getitem. rewrite Ht. cbn. rewrite Hk. reflexivity.
  - unfold getitem at 1. rewrite Hg. cbn [bind]. rewrite Hty. exact IH.
Qed.

Lemma lot_size_field_missing fs key :
  Forall other_filter fs -> lot_size_field fs key = Raise StopIteration.
Proof.
  induction 1 as [|g r (ty & Hg & Hty) _ IH]; simpl; [reflexivity |].
  unfold getitem. rewrite Hg. cbn [bind]. rewrite Hty. exact IH.
Qed.

(** X8.  The rules of an instrument are its two precisions and the minQty
    and stepSize of its first LOT_SIZE filter, read as decimals; the
    filters before it, of other types, play no part. *)
Theorem extract_info_first_lot_size :
  forall (s : SymbolEntry.t) (before after : list (gmap string Value))
         (f : gmap string Value) (minQty stepSize : string)
         (min_d step_d : Decimal),
    SymbolEntry.filters s = before ++ f :: after ->
    Forall other_filter before ->
    f !! "filterType" = Some (VStr "LOT_SIZE") ->
    f !! "minQty" = Some (VStr minQty) ->
    f !! "stepSize" = Some (VStr stepSize) ->
    of_string minQty = Some min_d ->
    of_string stepSize = Some step_d ->
    extract_info s
    = Ok {| price_precision := SymbolEntry.pricePrecision s;
            quantity_precision := SymbolEntry.quantityPrecision s;
            min_qty := min_d;
            step_size := step_d |}.
Proof.
  intros s before after f minQty stepSize min_d step_d Hfs Hb Ht Hmin Hstep Hpm Hps.
  unfold extract_info. rewrite Hfs.
  rewrite (lot_size_field_first _ _ _ _ _ Hb Ht Hmin). cbn [bind Decimal_of_value].
  rewrite Hpm. cbn [bind].
  rewrite (lot_size_field_first _ _ _ _ _ Hb Ht Hstep). cbn [bind Decimal_of_value].
  rewrite Hps. reflexivity.
Qed.

(** X8 at work on the BTCUSDT entry. *)
Lemma extract_info_first_lot_size_witness :
  extract_info btcusdt_entry = Ok btc_rules.
Proof.
  apply (extract_info_first_lot_size btcusdt_entry
           [ <["filterType" := VStr "PRICE_FILTER"]> ∅ ] []
           (lot_size_filter "0.001" "0.001") "0.001" "0.001").
  - reflexivity.
  - repeat constructor. exists (VStr "PRICE_FILTER"). split; reflexivity.
  - reflexivity.
  - reflexivity.
  - reflexivity.
  - vm_compute. reflexivity.
  - vm_compute. reflexivity.
Defined.

(** X9.  An instrument that is listed without a LOT_SIZE filter cannot be
    looked up: [next] finds nothing, the lookup raises [StopIteration], and
    nothing is cached. *)
Theorem lookup_without_lot_size :
  forall (client : Client) (symbol : string) (self : BasicBot)
         (exchange_info : list SymbolEntry.t) (s : SymbolEntry.t),
    _symbol_info_cache self !! upper symbol = None ->
    futures_exchange_info client (requests self) = Ok exchange_info ->
    find_symbol exchange_info (upper symbol) = Some s ->
    Forall other_filter (SymbolEntry.filters s) ->
    fst (get_symbol_info client symbol self) = Raise StopIteration /\
    _symbol_info_cache (snd (get_symbol_info client symbol self))
    = _symbol_info_cache self.
Proof.
  intros client symbol self ei s Hc Hr Hf Hno.
  unfold get_symbol_info. rewrite Hc, Hr. cbn [bind]. rewrite Hf.
  unfold extract_info. rewrite (lot_size_field_missing _ _ Hno).
  split; reflexivity.
Qed.

(** X9 at work on an instrument with a price filter only. *)
Lemma lookup_without_lot_size_witness :
  fst (get_symbol_info bare_exchange "xrpusdt" new_bot) = Raise StopIteration /\
  _symbol_info_cache (snd (get_symbol_info bare_exchange "xrpusdt" new_bot))
  = _symbol_info_cache new_bot.
Proof.
  apply (lookup_without_lot_size bare_exchange "xrpusdt" new_bot
           [bare_entry] bare_entry).
  - reflexivity.
  - reflexivity.
  - reflexivity.
  - repeat constructor. exists (VStr "PRICE_FILTER"). split; reflexivity.
Defined.

(** ** Sessions *)

Lemma validate_state client symbol quantity self :
  snd (_validate_and_format_quantity client symbol quantity self)
  = snd (get_symbol_info client symbol self).
Proof.
  unfold _validate_and_format_quantity.
  destruct (get_symbol_info client symbol self) as [[info | e] self1]; reflexivity.
Qed.

Lemma place_market_order_state client symbol side quantity self :
  _symbol_info_cache (snd (place_market_order client symbol side quantity self))
  = _symbol_info_cache (snd (get_symbol_info client symbol self)).
Proof.
  unfold place_market_order. rewrite <- (validate_state client symbol quantity self).
  destruct (_validate_and_format_quantity client symbol quantity self)
    as [[fq | e] self1]; reflexivity.
Qed.

Lemma place_limit_order_state client symbol side quantity price self :
  _symbol_info_cache (snd (place_limit_order client symbol side quantity price self))
  = _symbol_info_cache (snd (get_symbol_info client symbol self)).
Proof.
  unfold place_limit_order. rewrite <- (validate_state client symbol quantity self).
  destruct (_validate_and_format_quantity client symbol quantity self)
    as [[fq | e] self1]; reflexivity.
Qed.

(** The cache after any one call: as before, or with one entry more, taken
    from the list the exchange has just served. *)
Lemma step_cache client self c :
  _symbol_info_cache (step client self c) = _symbol_info_cache self \/
  exists symbol exchange_info s info,
    _symbol_info_cache self !! upper symbol = None /\
    futures_exchange_info client (requests self) = Ok exchange_info /\
    find_symbol exchange_info (upper symbol) = Some s /\
    extract_info s = Ok info /\
    _symbol_info_cache (step client self c)
    = <[upper symbol := info]> (_symbol_info_cache self).
Proof.
  assert (L : forall symbol,
             _symbol_info_cache (snd (get_symbol_info client symbol self))
             = _symbol_info_cache self \/
             exists symbol' exchange_info s info,
               _symbol_info_cache self !! upper symbol' = None /\
               futures_exchange_info client (requests self) = Ok exchange_info /\
               find_symbol exchange_info (upper symbol') = Some s /\
               extract_info s = Ok info /\
               _symbol_info_cache (snd (get_symbol_info client symbol self))
               = <[upper symbol' := info]> (_symbol_info_cache self)).
  { intros symbol.
    destruct (get_symbol_info_cases client symbol self)
      as [(i & Hc & H') | (Hc & [(ei & s & i & Hr & Hf & He & H') | (e' & H')])].
    - left. rewrite H'. reflexivity.
    - right. exists symbol, ei, s, i.
      split; [exact Hc |]. split; [exact Hr |]. split; [exact Hf |].
      split; [exact He |]. rewrite H'. reflexivity.
    - left. rewrite H'. reflexivity. }
  destruct c as [symbol | | symbol quantity | symbol side quantity
                 | symbol side quantity price]; cbn [step].
  - apply L.
  - left. reflexivity.
  - rewrite validate_state. apply L.
  - rewrite place_market_order_state. apply L.
  - rewrite place_limit_order_state. apply L.
Qed.

Lemma run_snoc client cs c self :
  run client (cs ++ [c]) self = step client (run client cs self) c.
Proof. unfold run. rewrite fold_left_app. reflexivity. Qed.

Lemma run_keeps_entry client commands self key info :
  _symbol_info_cache self !! key = Some info ->
  _symbol_info_cache (run client commands self) !! key = Some info.
Proof.
  intros H.
  induction commands as [|c cs IH] using rev_ind; [exact H |].
  rewrite run_snoc.
  destruct (step_cache client (run client cs self) c)
    as [-> | (symbol & ei & s & i & Hnone & _ & _ & _ & ->)]; [exact IH |].
  rewrite lookup_insert_ne; [exact IH |].
  intros <-. congruence.
Qed.

(** X10.  No call removes or replaces an entry of the cache: what is
    cached under a key stays there, unchanged, through any sequence of
    lookups, balance requests and orders. *)
Theorem cache_entries_kept :
  forall (client : Client) (commands : list Command) (self : BasicBot)
         (key : string) (info : SymbolInfo),
    _symbol_info_cache self !! key = Some info ->
    _symbol_info_cache (run client commands self) !! key = Some info.
Proof.
  intros client commands self key info H. apply run_keeps_entry, H.
Qed.

(** X10 at work: BTCUSDT stays cached while the exchange is out of reach. *)
Lemma cache_entries_kept_witness :
  _symbol_info_cache
    (run down_exchange
       [Cmd_get_symbol_info "ethusdt"; Cmd_get_account_balance;
        Cmd_place_limit_order "btcusdt" "buy" "0.0035" "50000.0"]
       btc_bot) !! "BTCUSDT"%string
  = Some btc_rules.
Proof.
  apply cache_entries_kept. vm_compute. reflexivity.
Defined.

(** X11.  Rules that a lookup has returned are returned again by every
    later lookup of the symbol, without a request, whatever was called in
    between and whatever the exchange answers by then. *)
Theorem rules_served_for_the_session :
  forall (client client' : Client) (symbol : string) (self self1 : BasicBot)
         (info : SymbolInfo) (commands : list Command),
    get_symbol_info client symbol self = (Ok info, self1) ->
    get_symbol_info client' symbol (run client' commands self1)
    = (Ok info, run client' commands self1).
Proof.
  intros client client' symbol self self1 info commands H.
  apply get_symbol_info_hit. apply run_keeps_entry.
  destruct (get_symbol_info_ok _ _ _ _ _ H) as [Hc _]. exact Hc.
Qed.

(** X11 at work: BTCUSDT after the exchange went out of reach. *)
Lemma rules_served_for_the_session_witness :
  get_symbol_info down_exchange "btcusdt"
    (run down_exchange [Cmd_get_symbol_info "ethusdt"] btc_bot)
  = (Ok btc_rules, run down_exchange [Cmd_get_symbol_info "ethusdt"] btc_bot).
Proof.
  apply (rules_served_for_the_session btc_exchange down_exchange "btcusdt"
           new_bot btc_bot btc_rules).
  vm_compute. reflexivity.
Defined.

(** X12.  Whatever is called on a new bot, every key of its cache is in
    upper case. *)
Theorem cache_keys_upper :
  forall (client : Client) (commands : list Command),
    upper_keys (run client commands new_bot).
Proof.
  intros client commands.
  induction commands as [|c cs IH] using rev_ind.
  - intros key info H. cbn in H. rewrite lookup_empty in H. discriminate.
  - rewrite run_snoc.
    destruct (step_cache client (run client cs new_bot) c)
      as [E | (symbol & ei & s & i & _ & _ & _ & _ & E)];
      intros key info H; rewrite E in H; [exact (IH _ _ H) |].
    destruct (decide (upper symbol = key)) as [<- | Hne].
    + apply upper_idem.
    + rewrite lookup_insert_ne in H by exact Hne. exact (IH _ _ H).
Qed.

(** X13.  While the exchange serves one instrument list, whatever is
    called on a new bot, each cached entry is what line 76 extracts from
    the first instrument of that name in the list. *)
Theorem cache_coherent :
  forall (client : Client) (exchange_info : list SymbolEntry.t)
         (commands : list Command),
    serves client exchange_info ->
    coherent exchange_info (run client commands new_bot).
Proof.
  intros client exchange_info commands Hserves.
  induction commands as [|c cs IH] using rev_ind.
  - apply coherent_new.
  - rewrite run_snoc.
    destruct (step_cache client (run client cs new_bot) c)
      as [E | (symbol & ei & s & i & _ & Hr & Hf & He & E)];
      intros key info H; rewrite E in H; [exact (IH _ _ H) |].
    apply Hserves in Hr. subst ei.
    destruct (decide (upper symbol = key)) as [<- | Hne].
    + rewrite lookup_insert_eq in H. injection H as <-. eauto.
    + rewrite lookup_insert_ne in H by exact Hne. exact (IH _ _ H).
Qed.

(** X13 at work on the example exchange. *)
Lemma cache_coherent_witness :
  coherent [btcusdt_entry]
    (run btc_exchange
       [Cmd_get_symbol_info "ethusdt";
        Cmd_place_market_order "btcusdt" "buy" "0.0035"]
       new_bot).
Proof.
  apply cache_coherent. intros history reply H. injection H as <-. reflexivity.
Defined.

(** ** The order gateway *)

Lemma getitem_ok d key v : getitem d key = Ok v -> d !! key = Some v.
Proof. unfold getitem. destruct (d !! key); congruence. Qed.

(** X14.  An order record that [_format_order_response] returns holds the
    fields of the raw order and nothing else: the six fields were there,
    the quantity is the float read from origQty, and the price is the
    float read from the price field of the raw order when it has one, and
    [float(0)] when it has none. *)
Theorem format_order_response_fields :
  forall (order : gmap string Value) (record : OrderRecord.t),
    _format_order_response order = Ok record ->
    order !! "orderId" = Some (OrderRecord.order_id record) /\
    order !! "symbol" = Some (OrderRecord.symbol record) /\
    order !! "side" = Some (OrderRecord.side record) /\
    order !! "type" = Some (OrderRecord.type record) /\
    (exists orig_qty,
        order !! "origQty" = Some orig_qty /\
        PyFloat.of_value orig_qty = Ok (OrderRecord.quantity record)) /\
    match order !! "price" with
    | Some price => PyFloat.of_value price = Ok (OrderRecord.price record)
    | None => PyFloat.of_value (VInt 0) = Ok (OrderRecord.price record)
    end /\
    order !! "status" = Some (OrderRecord.status record).
Proof.
  intros order record H. unfold _format_order_response in H.
  destruct (getitem order "orderId") as [v1 |] eqn:H1; [| discriminate].
  destruct (getitem order "symbol") as [v2 |] eqn:H2; [| discriminate].
  destruct (getitem order "side") as [v3 |] eqn:H3; [| discriminate].
  destruct (getitem order "type") as [v4 |] eqn:H4; [| discriminate].
  destruct (getitem order "origQty") as [v5 |] eqn:H5; [| discriminate].
  cbn [bind] in H.
  destruct (PyFloat.of_value v5) as [x |] eqn:H6; [| discriminate].
  cbn [bind] in H.
  destruct (PyFloat.of_value (get_price order)) as [y |] eqn:H7; [| discriminate].
  cbn [bind] in H.
  destruct (getitem order "status") as [v8 |] eqn:H8; [| discriminate].
  injection H as <-. cbn [OrderRecord.order_id OrderRecord.symbol OrderRecord.side
                           OrderRecord.type OrderRecord.quantity
                           OrderRecord.price OrderRecord.status].
  apply getitem_ok in H1, H2, H3, H4, H5, H8.
  unfold get_price in H7.
  split; [exact H1 |]. split; [exact H2 |]. split; [exact H3 |].
  split; [exact H4 |]. split; [exists v5; split; assumption |].
  split; [| exact H8].
  destruct (order !! "price"); exact H7.
Qed.

(** X14 at work on a resting limit order, priced at 50000.10. *)
Lemma format_order_response_fields_witness :
  resting_order !! "orderId" = Some (VInt 6) /\
  resting_order !! "symbol" = Some (VStr "BTCUSDT") /\
  resting_order !! "side" = Some (VStr "SELL") /\
  resting_order !! "type" = Some (VStr "LIMIT") /\
  (exists orig_qty,
      resting_order !! "origQty" = Some orig_qty /\
      PyFloat.of_value orig_qty = Ok (PyFloat.FloatOf (Finite false 20 (-3)))) /\
  match resting_order !! "price" with
  | Some price =>
      PyFloat.of_value price = Ok (PyFloat.FloatOf (Finite false 5000010 (-2)))
  | None =>
      PyFloat.of_value (VInt 0) = Ok (PyFloat.FloatOf (Finite false 5000010 (-2)))
  end /\
  resting_order !! "status" = Some (VStr "NEW").
Proof.
  apply (format_order_response_fields resting_order
           {| OrderRecord.order_id := VInt 6;
              OrderRecord.symbol := VStr "BTCUSDT";
              OrderRecord.side := VStr "SELL";
              OrderRecord.type := VStr "LIMIT";
              OrderRecord.quantity := PyFloat.FloatOf (Finite false 20 (-3));
              OrderRecord.price := PyFloat.FloatOf (Finite false 5000010 (-2));
              OrderRecord.status := VStr "NEW" |}).
  vm_compute. reflexivity.
Defined.

Lemma format_orders_spec orders records :
  format_orders orders = Ok records <->
  Forall2 (fun o r => _format_order_response o = Ok r) orders records.
Proof.
  revert records. induction orders as [|o rest IH]; intros records; simpl.
  - split.
    + intros [= <-]. constructor.
    + intros H. inversion H. reflexivity.
  - split.
    + destruct (_format_order_response o) as [r |] eqn:Ho; [| discriminate].
      cbn [bind]. destruct (format_orders rest) as [rs |] eqn:Hr; [| discriminate].
      intros [= <-]. constructor; [exact Ho | apply IH; reflexivity].
    + intros H. inversion H as [| ? r ? rs Ho Hrs]; subst.
      rewrite Ho. cbn [bind]. apply IH in Hrs. rewrite Hrs. reflexivity.
Qed.

(** X15.  [get_open_orders] returns a list exactly when the exchange
    answers with raw orders that all map to records: the list then holds
    one record per raw order, in the same order. *)
Theorem get_open_orders_all_or_nothing :
  forall (futures_get_open_orders :
            gmap string string -> Result (list (gmap string Value)))
         (symbol : option string) (records : list OrderRecord.t),
    get_open_orders futures_get_open_orders symbol = Ok records <->
    exists orders,
      futures_get_open_orders (open_orders_params symbol) = Ok orders /\
      Forall2 (fun o r => _format_order_response o = Ok r) orders records.
Proof.
  intros f symbol records. unfold get_open_orders. split.
  - destruct (f (open_orders_params symbol)) as [orders |]; [| discriminate].
    cbn [bind]. intros H. exists orders. split; [reflexivity |].
    apply format_orders_spec, H.
  - intros (orders & -> & H). cbn [bind]. apply format_orders_spec, H.
Qed.

(** X16.  One raw order that does not map fails the whole listing, with
    the exception of the first such order. *)
Theorem get_open_orders_malformed :
  forall (futures_get_open_orders :
            gmap string string -> Result (list (gmap string Value)))
         (symbol : option string)
         (good : list (gmap string Value)) (bad : gmap string Value)
         (rest : list (gmap string Value)) (e : Exception),
    futures_get_open_orders (open_orders_params symbol)
    = Ok (good ++ bad :: rest) ->
    Forall (fun o => exists r, _format_order_response o = Ok r) good ->
    _format_order_response bad = Raise e ->
    get_open_orders futures_get_open_orders symbol = Raise e.
Proof.
  intros f symbol good bad rest e Hr Hgood Hbad.
  unfold get_open_orders. rewrite Hr. cbn [bind]. clear Hr.
  induction Hgood as [|o os [r Ho] _ IH]; simpl.
  - rewrite Hbad. reflexivity.
  - rewrite Ho. cbn [bind]. rewrite IH. reflexivity.
Qed.

(** X16 at work: the second of three orders has no status. *)
Lemma get_open_orders_malformed_witness :
  get_open_orders (fun _ => Ok [echoed_order; truncated_order; echoed_order])
    (Some "btcusdt"%string)
  = Raise (KeyError "status").
Proof.
  apply (get_open_orders_malformed _ _ [echoed_order] truncated_order [echoed_order]).
  - reflexivity.
  - repeat constructor. eexists. vm_compute. reflexivity.
  - vm_compute. reflexivity.
Defined.

(** ** The balance *)

Lemma positive_balances_ok assets kept :
  positive_balances assets = Ok kept ->
  Forall readable_balance assets /\ kept = List.filter wallet_positive assets.
Proof.
  revert kept. induction assets as [|b rest IH]; intros kept; simpl.
  - intros [= <-]. split; [constructor | reflexivity].
  - unfold wallet_positive at 1.
    destruct (wallet_balance b) as [x |] eqn:Hb; [| discriminate]. cbn [bind].
    destruct (positive_balances rest) as [k |] eqn:Hr; [| discriminate].
    cbn [bind]. intros [= <-].
    destruct (IH k eq_refl) as [Hall ->].
    split; [constructor; [exists x; exact Hb | exact Hall] | reflexivity].
Qed.

(** X17.  A balance that [get_account_balance] returns comes from a
    snapshot in which every asset entry has a wallet balance that [float]
    accepts; one entry without it, or with text that is no number, fails
    the whole call. *)
Theorem get_account_balance_ok :
  forall (client : Client) (self : BasicBot) (balance : Balance.t),
    fst (get_account_balance client self) = Ok balance ->
    exists account,
      futures_account client (requests self) = Ok account /\
      Forall readable_balance (assets account) /\
      Balance.balances balance = List.filter wallet_positive (assets account) /\
      PyFloat.of_value (totalMarginBalance account)
      = Ok (Balance.total_margin_balance balance) /\
      PyFloat.of_value (availableBalance account)
      = Ok (Balance.available_balance balance) /\
      PyFloat.of_value (totalUnrealizedProfit account)
      = Ok (Balance.total_unrealized_pnl balance).
Proof.
  intros client self balance H. unfold get_account_balance in H. cbn [fst] in H.
  destruct (futures_account client (requests self)) as [account |] eqn:Hacc;
    [| discriminate].
  cbn [bind] in H.
  destruct (positive_balances (assets account)) as [kept |] eqn:Hk; [| discriminate].
  cbn [bind] in H.
  destruct (PyFloat.of_value (totalMarginBalance account)) as [tm |] eqn:Htm;
    [| discriminate].
  destruct (PyFloat.of_value (availableBalance account)) as [ab |] eqn:Hab;
    [| discriminate].
  destruct (PyFloat.of_value (totalUnrealizedProfit account)) as [pnl |] eqn:Hpnl;
    [| discriminate].
  cbn [bind] in H. injection H as <-. cbn.
  destruct (positive_balances_ok _ _ Hk) as [Hall ->].
  exists account. split; [reflexivity |]. split; [exact Hall |].
  split; [reflexivity |]. split; [exact Htm |]. split; [exact Hab | exact Hpnl].
Qed.

(** X17 at work on the example snapshot. *)
Lemma get_account_balance_ok_witness :
  exists account,
    futures_account btc_exchange (requests new_bot) = Ok account /\
    Forall readable_balance (assets account) /\
    [ <["asset" := VStr "BNB"]> (<["walletBalance" := VStr "0.25000000"]> ∅) ]
    = List.filter wallet_positive (assets account) /\
    PyFloat.of_value (totalMarginBalance account)
    = Ok (PyFloat.FloatOf (Finite false 9850000000 (-8))) /\
    PyFloat.of_value (availableBalance account)
    = Ok (PyFloat.FloatOf (Finite false 9850000000 (-8))) /\
    PyFloat.of_value (totalUnrealizedProfit account)
    = Ok (PyFloat.FloatOf (Finite false 0 (-8))).
Proof.
  apply (get_account_balance_ok btc_exchange new_bot
           {| Balance.total_margin_balance :=
                PyFloat.FloatOf (Finite false 9850000000 (-8));
              Balance.available_balance :=
                PyFloat.FloatOf (Finite false 9850000000 (-8));
              Balance.total_unrealized_pnl :=
                PyFloat.FloatOf (Finite false 0 (-8));
              Balance.balances :=
                [ <["asset" := VStr "BNB"]>
                    (<["walletBalance" := VStr "0.25000000"]> ∅) ] |}).
  vm_compute. reflexivity.
Defined.

(** What [_validate_and_format_quantity] leaves, and what its result
    stands for. *)
Lemma validate_cases client symbol quantity self :
  List.filter is_order
    (requests (snd (_validate_and_format_quantity client symbol quantity self)))
  = List.filter is_order (requests self) /\
  forall fq,
    fst (_validate_and_format_quantity client symbol quantity self) = Ok fq ->
    exists info q,
      _symbol_info_cache
        (snd (_validate_and_format_quantity client symbol quantity self))
        !! upper symbol = Some info /\
      of_string quantity = Some q /\
      normalize info q = Ok fq.
Proof.
  split.
  - rewrite validate_state.
    destruct (get_symbol_info_cases client symbol self)
      as [(i & _ & H') | (_ & [(ei & s & i & _ & _ & _ & H') | (e' & H')])];
      rewrite H'; cbn; [reflexivity |..];
      rewrite List.filter_app; cbn; apply app_nil_r.
  - intros fq H. rewrite validate_state.
    unfold _validate_and_format_quantity in H.
    destruct (get_symbol_info client symbol self) as [[info | e] self1] eqn:Hi;
      [| discriminate].
    destruct (get_symbol_info_ok _ _ _ _ _ Hi) as [Hc _].
    cbn [fst Decimal_of_value] in H.
    destruct (of_string quantity) as [q |]; [| discriminate].
    cbn [bind] in H. exists info, q. cbn [snd]. auto.
Qed.

(** X18.  Neither order method sends an order request unless the quantity
    went through [normalize] with the rules then cached for the symbol: a
    call either leaves the order requests as they were, or adds one, whose
    arguments name the symbol and the side in upper case, the type of the
    method, and as quantity the text [normalize] returned (and, for a limit
    order, the caller's price). *)
Theorem orders_carry_normalized_quantity :
  forall (client : Client) (symbol side quantity price : string)
         (self : BasicBot),
    (List.filter is_order
       (requests (snd (place_limit_order client symbol side quantity price self)))
     = List.filter is_order (requests self) \/
     exists info q formatted_quantity params,
       _symbol_info_cache
         (snd (place_limit_order client symbol side quantity price self))
         !! upper symbol = Some info /\
       of_string quantity = Some q /\
       normalize info q = Ok formatted_quantity /\
       List.filter is_order
         (requests (snd (place_limit_order client symbol side quantity price self)))
       = List.filter is_order (requests self)
         ++ [Call_futures_create_order params] /\
       params !! "symbol" = Some (upper symbol) /\
       params !! "side" = Some (upper side) /\
       params !! "type" = Some "LIMIT"%string /\
       params !! "quantity" = Some formatted_quantity /\
       params !! "price" = Some price) /\
    (List.filter is_order
       (requests (snd (place_market_order client symbol side quantity self)))
     = List.filter is_order (requests self) \/
     exists info q formatted_quantity params,
       _symbol_info_cache
         (snd (place_market_order client symbol side quantity self))
         !! upper symbol = Some info /\
       of_string quantity = Some q /\
       normalize info q = Ok formatted_quantity /\
       List.filter is_order
         (requests (snd (place_market_order client symbol side quantity self)))
       = List.filter is_order (requests self)
         ++ [Call_futures_create_order params] /\
       params !! "symbol" = Some (upper symbol) /\
       params !! "side" = Some (upper side) /\
       params !! "type" = Some "MARKET"%string /\
       params !! "quantity" = Some formatted_quantity).
Proof.
  intros client symbol side quantity price self.
  destruct (validate_cases client symbol quantity self) as [Hreq Hok].
  unfold place_limit_order, place_market_order.
  destruct (_validate_and_format_quantity client symbol quantity self)
    as [[fq | e] self1]; cbn [fst snd] in *.
  - destruct (Hok fq eq_refl) as (info & q & Hc & Hq & Hn).
    split; right.
    + exists info, q, fq, (limit_params symbol side fq price).
      unfold submit_order; cbn [fst snd sent requests _symbol_info_cache].
      rewrite List.filter_app, Hreq.
      repeat (split; [first [assumption | reflexivity] |]). reflexivity.
    + exists info, q, fq, (market_params symbol side fq).
      unfold submit_order; cbn [fst snd sent requests _symbol_info_cache].
      rewrite List.filter_app, Hreq.
      repeat (split; [first [assumption | reflexivity] |]). reflexivity.
  - split; left; exact Hreq.
Qed.

(** X19.  [place_market_order] does as [place_limit_order] does: the order
    request is for the symbol and the side in upper case, with type MARKET
    and the normalized quantity, and has no other argument, so neither a
    time in force nor a price. *)
Theorem place_market_order_gateway :
  forall (client : Client) (symbol side quantity : string)
         (self self1 : BasicBot) (info : SymbolInfo) (q : Decimal),
    get_symbol_info client symbol self = (Ok info, self1) ->
    of_string quantity = Some q ->
    (forall e,
        normalize info q = Raise e ->
        place_market_order client symbol side quantity self = (Raise e, self1)) /\
    (forall formatted_quantity,
        normalize info q = Ok formatted_quantity ->
        market_params symbol side formatted_quantity !! "symbol"
        = Some (upper symbol) /\
        market_params symbol side formatted_quantity !! "side"
        = Some (upper side) /\
        market_params symbol side formatted_quantity !! "type"
        = Some "MARKET"%string /\
        market_params symbol side formatted_quantity !! "quantity"
        = Some formatted_quantity /\
        market_params symbol side formatted_quantity !! "timeInForce" = None /\
        market_params symbol side formatted_quantity !! "price" = None /\
        (forall key,
            key ∉ market_keys ->
            market_params symbol side formatted_quantity !! key = None) /\
        place_market_order client symbol side quantity self
        = (order <- futures_create_order client (requests self1)
                      (market_params symbol side formatted_quantity) ;;
           _format_order_response order,
           sent (Call_futures_create_order
                   (market_params symbol side formatted_quantity))
             self1)).
Proof.
  intros client symbol side quantity self self1 info q Hi Hq.
  pose proof (validate_and_format_quantity_found _ _ _ _ _ _ _ Hi Hq) as Hv.
  split.
  - intros e He. unfold place_market_order. rewrite Hv, He. reflexivity.
  - intros fq Hn.
    split; [reflexivity |]. split; [reflexivity |].
    split; [reflexivity |]. split; [reflexivity |].
    split; [reflexivity |]. split; [reflexivity |].
    split; [intros key; apply market_params_other |].
    unfold place_market_order. rewrite Hv, Hn. reflexivity.
Qed.

(** X19 at work on both branches.  An order for 0.0005 BTCUSDT is below
    the minimum and nothing is sent; an order to buy 0.0035 btcusdt sends
    one request, for BTCUSDT, BUY, MARKET, 0.003, and returns the record of
    the reply. *)
Lemma place_market_order_gateway_witness :
  place_market_order btc_exchange "btcusdt" "buy" "0.0005" new_bot
  = (Raise BelowMinimum, btc_bot) /\
  (market_params "btcusdt" "buy" "0.003" !! "symbol" = Some "BTCUSDT"%string /\
   market_params "btcusdt" "buy" "0.003" !! "side" = Some "BUY"%string /\
   market_params "btcusdt" "buy" "0.003" !! "type" = Some "MARKET"%string /\
   market_params "btcusdt" "buy" "0.003" !! "quantity" = Some "0.003"%string /\
   market_params "btcusdt" "buy" "0.003" !! "timeInForce" = None /\
   market_params "btcusdt" "buy" "0.003" !! "price" = None /\
   (forall key,
       key ∉ market_keys ->
       market_params "btcusdt" "buy" "0.003" !! key = None) /\
   place_market_order btc_exchange "btcusdt" "buy" "0.0035" new_bot
   = (order <- futures_create_order btc_exchange (requests btc_bot)
                 (market_params "btcusdt" "buy" "0.003") ;;
      _format_order_response order,
      sent (Call_futures_create_order (market_params "btcusdt" "buy" "0.003"))
        btc_bot)).
Proof.
  split.
  - apply (proj1 (place_market_order_gateway btc_exchange "btcusdt" "buy" "0.0005"
                    new_bot btc_bot btc_rules quantity_0_0005
                    ltac:(vm_compute; reflexivity) ltac:(vm_compute; reflexivity))).
    vm_compute. reflexivity.
  - apply (proj2 (place_market_order_gateway btc_exchange "btcusdt" "buy" "0.0035"
                    new_bot btc_bot btc_rules quantity_0_0035
                    ltac:(vm_compute; reflexivity) ltac:(vm_compute; reflexivity))).
    vm_compute. reflexivity.
Defined.

(** X20.  An order for a symbol that is neither cached nor listed raises
    [SymbolNotFound], whatever the quantity: the quantity is not looked at,
    one request was sent, for the instrument list, and none for an
    order. *)
Theorem unlisted_symbol_order_rejected :
  forall (client : Client) (symbol side quantity price : string)
         (self : BasicBot) (exchange_info : list SymbolEntry.t),
    _symbol_info_cache self !! upper symbol = None ->
    futures_exchange_info client (requests self) = Ok exchange_info ->
    Forall (fun s => SymbolEntry.symbol s <> upper symbol) exchange_info ->
    place_limit_order client symbol side quantity price self
    = (Raise (SymbolNotFound (upper symbol)),
       logged (SymbolInfoFailed (upper symbol) (SymbolNotFound (upper symbol)))
         (sent Call_futures_exchange_info self)) /\
    place_market_order client symbol side quantity self
    = (Raise (SymbolNotFound (upper symbol)),
       logged (SymbolInfoFailed (upper symbol) (SymbolNotFound (upper symbol)))
         (sent Call_futures_exchange_info self)).
Proof.
  intros client symbol side quantity price self ei Hc Hr Habsent.
  apply find_symbol_none in Habsent.
  assert (Hi : get_symbol_info client symbol self
               = (Raise (SymbolNotFound (upper symbol)),
                  logged (SymbolInfoFailed (upper symbol)
                            (SymbolNotFound (upper symbol)))
                    (sent Call_futures_exchange_info self))).
  { unfold get_symbol_info. rewrite Hc, Hr. cbn [bind]. rewrite Habsent.
    reflexivity. }
  pose proof (validate_and_format_quantity_failed _ _ quantity _ _ _ Hi) as Hv.
  unfold place_limit_order, place_market_order. rewrite Hv.
  split; reflexivity.
Qed.

(** X20 at work: ETHUSDT on the example exchange, with a quantity that is
    no number. *)
Lemma unlisted_symbol_order_rejected_witness :
  place_limit_order btc_exchange "ethusdt" "buy" "much" "1.0" new_bot
  = (Raise (SymbolNotFound (upper "ethusdt")),
     logged (SymbolInfoFailed (upper "ethusdt") (SymbolNotFound (upper "ethusdt")))
       (sent Call_futures_exchange_info new_bot)) /\
  place_market_order btc_exchange "ethusdt" "buy" "much" new_bot
  = (Raise (SymbolNotFound (upper "ethusdt")),
     logged (SymbolInfoFailed (upper "ethusdt") (SymbolNotFound (upper "ethusdt")))
       (sent Call_futures_exchange_info new_bot)).
Proof.
  apply (unlisted_symbol_order_rejected btc_exchange "ethusdt" "buy" "much" "1.0"
           new_bot [btcusdt_entry]).
  - reflexivity.
  - reflexivity.
  - repeat constructor. discriminate.
Defined.

(** X21.  With the rules of the symbol cached, an order for a quantity
    below the minimum raises [BelowMinimum] and leaves the bot as it was:
    nothing is sent to the exchange. *)
Theorem below_minimum_order_rejected_locally :
  forall (client : Client) (symbol side quantity price : string)
         (self : BasicBot) (info : SymbolInfo) (q : Decimal),
    _symbol_info_cache self !! upper symbol = Some info ->
    of_string quantity = Some q ->
    below q (min_qty info) ->
    place_limit_order client symbol side quantity price self
    = (Raise BelowMinimum, self) /\
    place_market_order client symbol side quantity self
    = (Raise BelowMinimum, self).
Proof.
  intros client symbol side quantity price self info q Hc Hq Hb.
  pose proof (get_symbol_info_hit client symbol self info Hc) as Hi.
  pose proof (validate_and_format_quantity_found _ _ _ _ _ _ _ Hi Hq) as Hv.
  assert (Hn : normalize info q = Raise BelowMinimum).
  { unfold normalize. rewrite (lt_below _ _ Hb). reflexivity. }
  unfold place_limit_order, place_market_order. rewrite Hv, Hn.
  split; reflexivity.
Qed.

(** X21 at work: 0.0005 BTCUSDT on a bot that has the rules. *)
Lemma below_minimum_order_rejected_locally_witness :
  place_limit_order down_exchange "btcusdt" "sell" "0.0005" "50000.0" btc_bot
  = (Raise BelowMinimum, btc_bot) /\
  place_market_order down_exchange "btcusdt" "sell" "0.0005" btc_bot
  = (Raise BelowMinimum, btc_bot).
Proof.
  apply (below_minimum_order_rejected_locally down_exchange "btcusdt" "sell"
           "0.0005" "50000.0" btc_bot btc_rules quantity_0_0005).
  - vm_compute. reflexivity.
  - vm_compute. reflexivity.
  - vm_compute. reflexivity.
Defined.
